(** * k8s-athenz-syncer: the bootstrap in [main.go]

    A shallow embedding of [main.go]: [homeDir], [getClients],
    [createZMSClient] and [main].  Go strings are byte strings
    ([String.string]); a Go [error] is its message, [None] being [nil]; a
    Go multiple return [(T, error)] is a pair.  Calls that leave the file
    (client-go, the Athenz ZMS client, [time.ParseDuration], the packages
    of this repository under [pkg/]) are answered by a [World], and every
    such call is recorded as an [Event], in program order. *)

From Stdlib Require Import String Ascii List Bool ZArith Lia.
Import ListNotations.
Open Scope list_scope.
Open Scope string_scope.

Set Implicit Arguments.

(** ** Go values *)

(** A Go [error]: [None] is [nil], [Some msg] an error whose [Error()]
    is [msg]. *)
Definition error := option string.

Definition is_nil (e : error) : bool :=
  match e with None => true | Some _ => false end.

(** [time.Duration] is an [int64] count of nanoseconds. *)
Definition Duration := Z.

(** ** [strings.Split] with a one-byte separator

    [strings.Split(s, sep)] cuts [s] at every occurrence of [sep] and
    returns the pieces between them, [Count(s, sep) + 1] of them; the
    pieces of the empty string are the one empty string. *)
Module strings.

Fixpoint Split1 (sep : ascii) (s : string) : list string :=
  match s with
  | EmptyString => [EmptyString]
  | String c rest =>
      if Ascii.eqb c sep then EmptyString :: Split1 sep rest
      else match Split1 sep rest with
           | piece :: pieces => String c piece :: pieces
           | [] => [String c EmptyString]
           end
  end.

(** [strings.Count] for a one-byte separator. *)
Fixpoint Count1 (sep : ascii) (s : string) : nat :=
  match s with
  | EmptyString => 0
  | String c rest => (if Ascii.eqb c sep then 1 else 0) + Count1 sep rest
  end.

(** [strings.Join] for a one-byte separator. *)
Fixpoint Join1 (sep : ascii) (pieces : list string) : string :=
  match pieces with
  | [] => EmptyString
  | [p] => p
  | p :: rest => p ++ String sep (Join1 sep rest)
  end.

(** [strings.Contains] for one byte. *)
Fixpoint ContainsByte (c : ascii) (s : string) : bool :=
  match s with
  | EmptyString => false
  | String d rest => Ascii.eqb d c || ContainsByte c rest
  end.

(** The call of [main]: [strings.Split(s, ",")]. *)
Definition Split (s : string) : list string := Split1 "," s.

End strings.

(** ** The namespace loop of [main]

    [processList := []string{}; for _, item := range systemNSList
     { if item != "" { processList = append(processList, item) } }] *)
Definition appendNonEmpty (processList : list string) (item : string)
  : list string :=
  if String.eqb item "" then processList else (processList ++ [item])%list.

Definition processNamespaces (systemNSList : list string) : list string :=
  fold_left appendNonEmpty systemNSList [].

(** What the loop's test [item != ""] lets through. *)
Definition nonEmpty (s : string) : bool := negb (String.eqb s "").

(** The list [main] hands to [util.NewUtil] for a value of the
    [system-namespaces] flag. *)
Definition systemNamespaceList (systemNamespaces : string) : list string :=
  processNamespaces (strings.Split systemNamespaces).

(** ** The credential store, [pkg/reloader] *)
Module Reloader.

(** [r.ReloadConfig{KeyFile: *key, CertFile: *cert}], as [main] builds
    it. *)
Record ReloadConfig := { KeyFile : string; CertFile : string }.

(** The disk at one instant: the contents of a path, [None] when the
    file cannot be read. *)
Definition Files := string -> option string.

Section Store.
(** [tls.Certificate], the parsed pair of private key and
    certificate, and its parser [tls.X509KeyPair(certPEM, keyPEM)]. *)
Variable Certificate : Type.
Variable X509KeyPair : string -> string -> Certificate + string.

(** Modelled from the spec: the CredentialBundle of [pkg/reloader],
    which is not among the sources: "the currently active (private
    key, certificate) pair plus load timestamp". *)
Record CredentialBundle := {
  bundle_certificate : Certificate;
  bundle_loaded : nat
}.

(** Modelled from the spec: the state of a [CertReloader] of
    [pkg/reloader]: the configured paths, the current bundle (a
    pointer, [None] being nil), the outcome of a reload that has read
    and parsed the files and has not yet published, and what it
    logged. *)
Record CertReloader := {
  config : ReloadConfig;
  current : option CredentialBundle;
  in_progress : option (Certificate + string);
  logged : list string
}.

(** Reading and parsing the two configured files. *)
Definition LoadX509KeyPair (disk : Files) (cfg : ReloadConfig)
  : Certificate + string :=
  match disk (CertFile cfg), disk (KeyFile cfg) with
  | Some certPEM, Some keyPEM => X509KeyPair certPEM keyPEM
  | None, _ => inr ("unable to read " ++ CertFile cfg)
  | _, None => inr ("unable to read " ++ KeyFile cfg)
  end.

(** Modelled from the spec: [NewCertReloader] of [pkg/reloader]:
    "Startup failure to parse the initial files is fatal (no prior
    bundle exists to fall back on)". *)
Definition NewCertReloader (cfg : ReloadConfig) (disk : Files) (now : nat)
  : option CertReloader * error :=
  match LoadX509KeyPair disk cfg with
  | inl cert =>
      (Some {| config := cfg;
               current := Some {| bundle_certificate := cert;
                                  bundle_loaded := now |};
               in_progress := None;
               logged := [] |}, None)
  | inr msg => (None, Some msg)
  end.

(** Modelled from the spec: the reload of [pkg/reloader], in its two
    steps: "re-read the configured key and certificate files, parse
    them, and - only if parsing succeeds - atomically swap the active
    CredentialBundle.  If parsing fails, log the error and keep
    serving the previous bundle". *)
Definition beginReload (disk : Files) (r : CertReloader) : CertReloader :=
  {| config := config r;
     current := current r;
     in_progress := Some (LoadX509KeyPair disk (config r));
     logged := logged r |}.

Definition finishReload (now : nat) (r : CertReloader) : CertReloader :=
  match in_progress r with
  | None => r
  | Some (inl cert) =>
      {| config := config r;
         current := Some {| bundle_certificate := cert;
                            bundle_loaded := now |};
         in_progress := None;
         logged := logged r |}
  | Some (inr msg) =>
      {| config := config r;
         current := current r;
         in_progress := None;
         logged := (logged r ++ [msg])%list |}
  end.

Definition reload (disk : Files) (now : nat) (r : CertReloader)
  : CertReloader :=
  finishReload now (beginReload disk r).

(** Modelled from the spec: [GetLatestCertificate] of [pkg/reloader]:
    "a pure read of the current bundle".  The result is a
    [*tls.Certificate]. *)
Definition GetLatestCertificate (r : CertReloader) : option Certificate :=
  option_map bundle_certificate (current r).

(** What the reload thread does between two reads. *)
Inductive Tick :=
| BeginReload (disk : Files)
| FinishReload (now : nat).

Definition tick (r : CertReloader) (t : Tick) : CertReloader :=
  match t with
  | BeginReload disk => beginReload disk r
  | FinishReload now => finishReload now r
  end.

Definition run (ticks : list Tick) (r : CertReloader) : CertReloader :=
  fold_left tick ticks r.

(** A certificate that [tls.X509KeyPair] produced. *)
Definition parsed (c : Certificate) : Prop :=
  exists certPEM keyPEM, X509KeyPair certPEM keyPEM = inl c.

(** The reloader serves a parsed bundle, and a reload that is about to
    publish publishes a parsed one. *)
Definition serving (r : CertReloader) : Prop :=
  (exists b, current r = Some b /\ parsed (bundle_certificate b)) /\
  (forall c, in_progress r = Some (inl c) -> parsed c).

End Store.

End Reloader.

(** ** Objects of other packages

    [main.go] passes these around and never looks inside; a pointer or an
    interface value of such a type is an [option], [None] being nil. *)
Class Externals := {
  (** [rest.Config] of client-go *)
  RestConfig : Type;
  (** the value behind a [kubernetes.Interface] *)
  KubeClient : Type;
  (** [athenzClientset.Clientset], [pkg/client] of this repository *)
  AthenzClientset : Type;
  (** [tls.Certificate], [tls.CertificateRequestInfo] and
      [CertificateRequestInfo.SupportsCertificate] of crypto/tls *)
  Certificate : Type;
  CertificateRequestInfo : Type;
  SupportsCertificate : CertificateRequestInfo -> Certificate -> bool;
  (** [new(tls.Certificate)] *)
  emptyCertificate : Certificate;
  (** [tls.X509KeyPair] *)
  X509KeyPair : string -> string -> Certificate + string
}.

(** A [*r.CertReloader]. *)
Inductive ReloaderPtr :=
| nilReloader
| reloaderAt (address : nat).

(** The two channels [main] makes. *)
Inductive Chan := stopCh | sigTerm.

Definition Chan_eqb (a b : Chan) : bool :=
  match a, b with
  | stopCh, stopCh | sigTerm, sigTerm => true
  | _, _ => false
  end.

(** Signals that reach the program only through [os/signal]: the two
    [main] registers for, and two the Go runtime catches and drops when
    nobody registered for them. *)
Inductive Signal := SIGINT | SIGTERM | SIGUSR1 | SIGUSR2.

Definition Signal_eqb (a b : Signal) : bool :=
  match a, b with
  | SIGINT, SIGINT | SIGTERM, SIGTERM
  | SIGUSR1, SIGUSR1 | SIGUSR2, SIGUSR2 => true
  | _, _ => false
  end.

(** A call that returns or panics. *)
Inductive Call (A : Type) :=
| Returns (a : A)
| Panics (v : string).
Arguments Panics {A} v.

(** The [log.Panic...] calls of [main.go], by line. *)
Inductive PanicSite :=
| AtBuildConfig        (* getClients, line 63 *)
| AtGetClients         (* main, line 116 *)
| AtNewCertReloader    (* main, line 127 *)
| AtCreateZMSClient    (* main, line 133 *)
| AtUpdateCron         (* main, line 152 *)
| AtResyncCron         (* main, line 156 *)
| AtQueueDelay.        (* main, line 160 *)

(** How a run of [main] ends when it does not return: a panic, a call of
    [os.Exit], or a receive that nothing ever answers. *)
Inductive Stop :=
| Panic (site : PanicSite) (v : string)
| Exit (code : Z)
| Blocked.

Inductive Level := InfoLevel | PanicLevel.

(** The parsed command line: the flags the user set, by name.  Boolean
    flags were read by [strconv.ParseBool] when [flag.Parse] accepted
    them. *)
Record CommandLine := {
  stringFlags : string -> option string;
  boolFlags : string -> option bool
}.

(** What [flag.Parse] makes of the arguments: with
    [flag.ExitOnError], a command line it rejects ends the process. *)
Inductive ParseOutcome :=
| Parsed (cl : CommandLine)
| Rejected (code : Z).

(** A flag variable: the pointer [flag.String] or [flag.Bool] returns.
    It holds the default until [flag.Parse] has run. *)
Record Flag (A : Type) := {
  flag_name : string;
  flag_default : A;
  flag_lookup : CommandLine -> string -> option A
}.

Definition flag_String (name value : string) : Flag string :=
  {| flag_name := name; flag_default := value; flag_lookup := stringFlags |}.

Definition flag_Bool (name : string) (value : bool) : Flag bool :=
  {| flag_name := name; flag_default := value; flag_lookup := boolFlags |}.

Definition flagValue {A} (parsed : option CommandLine) (f : Flag A) : A :=
  match parsed with
  | None => flag_default f
  | Some cl =>
      match flag_lookup f cl (flag_name f) with
      | Some v => v
      | None => flag_default f
      end
  end.

(** [fmt]'s [%v] of an error. *)
Definition Error (e : error) : string :=
  match e with Some msg => msg | None => "<nil>" end.

Section Bootstrap.
Context {X : Externals}.

Definition CertReloader := Reloader.CertReloader Certificate.

(** The heap, as far as [main.go] reaches into it: the reloader objects,
    which the reload thread updates in place. *)
Definition Heap := nat -> option CertReloader.

Definition deref (heap : Heap) (p : ReloaderPtr) : option CertReloader :=
  match p with
  | nilReloader => None
  | reloaderAt a => heap a
  end.

(** [reloader.GetLatestCertificate()] through the pointer, on the heap
    of the moment of the call. *)
Definition GetLatestCertificate (heap : Heap) (reloader : ReloaderPtr)
  : Call (option Certificate) :=
  match deref heap reloader with
  | Some r => Returns (Reloader.GetLatestCertificate r)
  | None => Panics "invalid memory address or nil pointer dereference"
  end.

(** ** crypto/tls, net/http and the ZMS client, as far as
    [createZMSClient] uses them *)

(** [tls.Config]: the two fields that decide the client certificate. *)
Record tls_Config := {
  Certificates : list Certificate;
  GetClientCertificate :
    option (Heap -> CertificateRequestInfo ->
            Call (option Certificate * error))
}.

(** [&tls.Config{}] *)
Definition tls_Config_zero : tls_Config :=
  {| Certificates := []; GetClientCertificate := None |}.

(** [getClientCertificate] of a [tls.Conn]: what a handshake does when the
    server asks for a client certificate. *)
Definition getClientCertificate (c : tls_Config) (heap : Heap)
  (cri : CertificateRequestInfo) : Call (option Certificate * error) :=
  match GetClientCertificate c with
  | Some callback => callback heap cri
  | None =>
      match find (SupportsCertificate cri) (Certificates c) with
      | Some chain => Returns (Some chain, None)
      | None => Returns (Some emptyCertificate, None)
      end
  end.

(** [http.Transport] *)
Record http_Transport := {
  TLSClientConfig : option tls_Config;
  DisableKeepAlives : bool
}.

(** [zms.ZMSClient], and [zms.NewClient(url, transport)], which fills in
    the two fields and returns. *)
Record ZMSClient := {
  URL : string;
  Transport : option http_Transport
}.

Definition zms_NewClient (url : string) (transport : option http_Transport)
  : ZMSClient :=
  {| URL := url; Transport := transport |}.

(** The client certificate of a handshake of the client's transport. *)
Definition handshakeCertificate (client : ZMSClient) (heap : Heap)
  (cri : CertificateRequestInfo) : Call (option Certificate * error) :=
  match Transport client with
  | Some transport =>
      match TLSClientConfig transport with
      | Some c => getClientCertificate c heap cri
      | None => getClientCertificate tls_Config_zero heap cri
      end
  | None => getClientCertificate tls_Config_zero heap cri
  end.

(** ** [createZMSClient] *)
Definition createZMSClient (reloader : ReloaderPtr) (zmsURL : string)
  (disableKeepAlives : bool) : option ZMSClient * error :=
  let config := tls_Config_zero in
  let config :=
    {| Certificates := Certificates config;
       GetClientCertificate :=
         Some (fun heap _ =>
                 match GetLatestCertificate heap reloader with
                 | Returns c => Returns (c, None)
                 | Panics v => Panics v
                 end) |} in
  let transport :=
    {| TLSClientConfig := Some config;
       DisableKeepAlives := disableKeepAlives |} in
  let client := zms_NewClient zmsURL (Some transport) in
  (Some client, None).

(** A [*util.Util] and a [*controller.Controller], by the arguments
    [util.NewUtil] and [controller.NewController] received. *)
Record Util := {
  util_adminDomain : string;
  util_systemNamespaces : list string
}.

Record Controller := {
  ctl_k8sClient : option KubeClient;
  ctl_versiondClient : option AthenzClientset;
  ctl_zmsClient : option ZMSClient;
  ctl_updatePeriod : Duration;
  ctl_resyncPeriod : Duration;
  ctl_delayInterval : Duration;
  ctl_util : Util
}.

(** ** The world [main] runs in *)
Record World := {
  (** [os.Getenv] *)
  Getenv : string -> string;
  (** [filepath.Join] *)
  filepath_Join : list string -> string;
  (** [flag.Parse] on the arguments of the process *)
  commandLine : ParseOutcome;
  (** [clientcmd.BuildConfigFromFlags(masterUrl, kubeconfigPath)] *)
  BuildConfigFromFlags : string -> string -> option RestConfig * error;
  (** [kubernetes.NewForConfig], [athenzClientset.NewForConfig] *)
  kubernetes_NewForConfig : option RestConfig -> option KubeClient * error;
  athenz_NewForConfig : option RestConfig -> option AthenzClientset * error;
  (** [r.NewCertReloader(config, stop)] *)
  NewCertReloader : Reloader.ReloadConfig -> Chan -> ReloaderPtr * error;
  (** [time.ParseDuration] *)
  ParseDuration : string -> Duration * error;
  (** the signals delivered once [main] waits for them, in order *)
  signals : list Signal
}.

(** What [main] does to the world, in program order. *)
Inductive Event :=
| InitLogger (logLoc logMode : string)
| Log (level : Level) (msg : string)
| CallBuildConfigFromFlags (masterUrl kubeconfigPath : string)
| CallKubernetesNewForConfig (c : option RestConfig)
| CallAthenzNewForConfig (c : option RestConfig)
| CallNewCertReloader (cfg : Reloader.ReloadConfig) (stop : Chan)
| CallNewUtil (u : Util)
| CallParseDuration (s : string)
| CallNewController (c : Controller)
| Go_ControllerRun (c : Controller) (stop : Chan)
| Notify (c : Chan) (sig : Signal)
| Receive (c : Chan) (sig : Signal)
| Close (c : Chan).

(** ** Running [main]: state, events, and the ways a run stops *)

(** What a run carries along: the events so far, the command line once
    [flag.Parse] has run, and the registrations of [signal.Notify]. *)
Record State := {
  events : list Event;
  parsedFlags : option CommandLine;
  registered : list (Chan * Signal)
}.

Definition start : State :=
  {| events := []; parsedFlags := None; registered := [] |}.

Definition M (A : Type) := State -> State * (A + Stop).

Definition ret {A} (a : A) : M A := fun s => (s, inl a).

Definition bind {A B} (m : M A) (k : A -> M B) : M B :=
  fun s =>
    match m s with
    | (s', inl a) => k a s'
    | (s', inr stop) => (s', inr stop)
    end.

Notation "x <- m ;; k" := (bind m (fun x => k))
  (at level 61, m at next level, right associativity).
Notation "' pat <- m ;; k" := (bind m (fun x => match x with pat => k end))
  (at level 61, pat pattern, m at next level, right associativity).
Notation "m ;; k" := (bind m (fun _ => k))
  (at level 61, right associativity).

Definition emit (e : Event) : M unit :=
  fun s =>
    ({| events := (events s ++ [e])%list;
        parsedFlags := parsedFlags s;
        registered := registered s |}, inl tt).

Definition stop {A} (how : Stop) : M A := fun s => (s, inr how).

(** [*f] for a flag variable [f]. *)
Definition star {A} (f : Flag A) : M A :=
  fun s => (s, inl (flagValue (parsedFlags s) f)).

(** [defer d] at the head of [body]: [d] runs when [body] returns and
    when it panics, not when the process exits or never gets there. *)
Definition defer {A} (d : M unit) (body : M A) : M A :=
  fun s =>
    match body s with
    | (s', inl a) =>
        match d s' with
        | (s'', inl _) => (s'', inl a)
        | (s'', inr how) => (s'', inr how)
        end
    | (s', inr (Panic site v)) => (fst (d s'), inr (Panic site v))
    | (s', inr how) => (s', inr how)
    end.

Variable w : World.

Definition flag_Parse : M unit :=
  fun s =>
    match commandLine w with
    | Parsed cl =>
        ({| events := events s;
            parsedFlags := Some cl;
            registered := registered s |}, inl tt)
    | Rejected code => (s, inr (Exit code))
    end.

(** Modelled from the spec: [pkg/log] is not among the sources.
    [InitLogger] sets the logger up, [Info] writes a line, and
    [Panicln] and [Panicf] write the cause and abort the process:
    "Process aborts immediately with a logged cause". *)
Definition log_InitLogger (logLoc logMode : string) : M unit :=
  emit (InitLogger logLoc logMode).

Definition log_Info (msg : string) : M unit := emit (Log InfoLevel msg).

Definition log_Panicln {A} (site : PanicSite) (msg : string) : M A :=
  emit (Log PanicLevel msg) ;; stop (Panic site msg).

(** [format] is the text before the [%v] that ends the format string. *)
Definition log_Panicf {A} (site : PanicSite) (format : string) (err : error)
  : M A :=
  log_Panicln site (format ++ Error err).

(** [fmt.Errorf(format, err)] with the format's [%v] at its end. *)
Definition fmt_Errorf (format : string) (err : error) : error :=
  Some (format ++ Error err).

Definition signal_Notify (c : Chan) (sig : Signal) : M unit :=
  fun s =>
    ({| events := (events s ++ [Notify c sig])%list;
        parsedFlags := parsedFlags s;
        registered := ((c, sig) :: registered s)%list |}, inl tt).

Definition relayed (s : State) (c : Chan) (sig : Signal) : bool :=
  existsb (fun r => Chan_eqb (fst r) c && Signal_eqb (snd r) sig)
          (registered s).

(** [<-c] on a channel that only [os/signal] sends on: the first
    delivered signal registered for it; without one the receive never
    returns. *)
Definition receive (c : Chan) : M Signal :=
  fun s =>
    match find (relayed s c) (signals w) with
    | Some sig => (fst (emit (Receive c sig) s), inl sig)
    | None => (s, inr Blocked)
    end.

(** ** [homeDir] *)
Definition homeDir : string :=
  let h := Getenv w "HOME" in
  if negb (String.eqb h "") then h
  else Getenv w "USERPROFILE".

(** ** [getClients] *)
Definition getClients (inClusterConfig : Flag bool)
  : M (option KubeClient * option AthenzClientset * error) :=
  let home := homeDir in
  let kubeconfig :=
    if negb (String.eqb home "")
    then flag_String "kubeconfig" (filepath_Join w [home; ".kube"; "config"])
    else flag_String "kubeconfig" "" in
  flag_Parse ;;
  inCluster <- star inClusterConfig ;;
  kubeconfigPath <- (if inCluster then ret "" else star kubeconfig) ;;
  emit (CallBuildConfigFromFlags "" kubeconfigPath) ;;
  let '(config, err) := BuildConfigFromFlags w "" kubeconfigPath in
  (if is_nil err then ret tt else log_Panicln AtBuildConfig (Error err)) ;;
  emit (CallKubernetesNewForConfig config) ;;
  let '(client, err) := kubernetes_NewForConfig w config in
  if negb (is_nil err)
  then ret (None, None,
            fmt_Errorf "Failed to create k8s client from config. Error: " err)
  else
    emit (CallAthenzNewForConfig config) ;;
    let '(versiondClient, err) := athenz_NewForConfig w config in
    if negb (is_nil err)
    then ret (None, None,
              fmt_Errorf
                "Failed to create versiond client from config. Error: " err)
    else
      log_Info "Successfully constructed k8s client" ;;
      ret (client, versiondClient, None).

(** ** [main] *)

(** The flag variables of [main], in the order of their definition. *)
Definition key := flag_String "key" "/var/run/athenz/service.key.pem".
Definition cert := flag_String "cert" "/var/run/athenz/service.cert.pem".
Definition zmsURL := flag_String "zms-url" "".
Definition updateCron := flag_String "update-cron" "1m0s".
Definition resyncCron := flag_String "resync-cron" "1h0m0s".
Definition queueDelayInterval := flag_String "queue-delay-interval" "250ms".
Definition adminDomain := flag_String "admin-domain" "".
Definition systemNamespaces := flag_String "system-namespaces" "".
Definition disableKeepAlives := flag_Bool "disable-keep-alives" true.
Definition logLoc :=
  flag_String "log-location"
              "/var/log/k8s-athenz-syncer/k8s-athenz-syncer.log".
Definition logMode := flag_String "log-mode" "info".
Definition inClusterConfig := flag_Bool "inClusterConfig" true.

Definition time_ParseDuration (s : string) : M (Duration * error) :=
  emit (CallParseDuration s) ;; ret (ParseDuration w s).

Definition util_NewUtil (domain : string) (namespaces : list string)
  : M Util :=
  let u := {| util_adminDomain := domain;
              util_systemNamespaces := namespaces |} in
  emit (CallNewUtil u) ;; ret u.

Definition controller_NewController
  (k8sClient : option KubeClient) (versiondClient : option AthenzClientset)
  (zmsClient : option ZMSClient)
  (updatePeriod resyncPeriod delayInterval : Duration) (util : Util)
  : M Controller :=
  let c := {| ctl_k8sClient := k8sClient;
              ctl_versiondClient := versiondClient;
              ctl_zmsClient := zmsClient;
              ctl_updatePeriod := updatePeriod;
              ctl_resyncPeriod := resyncPeriod;
              ctl_delayInterval := delayInterval;
              ctl_util := util |} in
  emit (CallNewController c) ;; ret c.

(** Lines 165 to 176: the deferred close, the controller's goroutine,
    and the wait for a signal. *)
Definition runUntilSignal (controller : Controller) : M unit :=
  defer (emit (Close stopCh))
    (emit (Go_ControllerRun controller stopCh) ;;
     signal_Notify sigTerm SIGTERM ;;
     signal_Notify sigTerm SIGINT ;;
     _ <- receive sigTerm ;;
     ret tt).

(** Lines 132 to 176: [main] from the return of [createZMSClient] on. *)
Definition mainWithZMSClient
  (k8sClient : option KubeClient) (versiondClient : option AthenzClientset)
  (created : option ZMSClient * error) : M unit :=
  let '(zmsClient, err) := created in
  (if negb (is_nil err)
   then log_Panicf AtCreateZMSClient
          "Error occurred when creating zms client. Error: " err
   else ret tt) ;;
  log_Info "Sucessfully created ZMS Client" ;;
  namespaces <- star systemNamespaces ;;
  let systemNSList := strings.Split namespaces in
  let processList := processNamespaces systemNSList in
  domain <- star adminDomain ;;
  util <- util_NewUtil domain processList ;;
  update <- star updateCron ;;
  '(updatePeriod, err) <- time_ParseDuration update ;;
  (if negb (is_nil err)
   then log_Panicf AtUpdateCron
          "Update Cron interval input is invalid. Error: " err
   else ret tt) ;;
  resync <- star resyncCron ;;
  '(resyncPeriod, err) <- time_ParseDuration resync ;;
  (if negb (is_nil err)
   then log_Panicf AtResyncCron
          "Full Resync Cron interval input is invalid. Error: " err
   else ret tt) ;;
  delay <- star queueDelayInterval ;;
  '(delayInterval, err) <- time_ParseDuration delay ;;
  (if negb (is_nil err)
   then log_Panicf AtQueueDelay "Queue delay input is invalid. Error: " err
   else ret tt) ;;
  controller <- controller_NewController k8sClient versiondClient zmsClient
                  updatePeriod resyncPeriod delayInterval util ;;
  runUntilSignal controller.

Definition main : M unit :=
  loc <- star logLoc ;;
  mode <- star logMode ;;
  log_InitLogger loc mode ;;
  '(k8sClient, versiondClient, err) <- getClients inClusterConfig ;;
  (if negb (is_nil err)
   then log_Panicf AtGetClients
          "Error occurred when creating clients. Error: " err
   else ret tt) ;;
  keyFile <- star key ;;
  certFile <- star cert ;;
  let cfg := {| Reloader.KeyFile := keyFile;
                Reloader.CertFile := certFile |} in
  emit (CallNewCertReloader cfg stopCh) ;;
  let '(certReloader, err) := NewCertReloader w cfg stopCh in
  (if negb (is_nil err)
   then log_Panicf AtNewCertReloader
          "Error occurred when creating new reloader. Error: " err
   else ret tt) ;;
  url <- star zmsURL ;;
  keepAlivesOff <- star disableKeepAlives ;;
  mainWithZMSClient k8sClient versiondClient
    (createZMSClient certReloader url keepAlivesOff).

(** A run of the program from its start. *)
Definition runMain : State * (unit + Stop) := main start.

End Bootstrap.

(** ** Reading a run *)
Section Reading.
Context {X : Externals}.

(** The value of a flag variable once the command line [cl] is parsed. *)
Definition parsedValue {A} (cl : CommandLine) (f : Flag A) : A :=
  flagValue (Some cl) f.

(** The second argument [getClients] gives to
    [clientcmd.BuildConfigFromFlags]. *)
Definition kubeconfigPath (w : World) (cl : CommandLine) : string :=
  if parsedValue cl inClusterConfig then ""
  else parsedValue cl
         (if negb (String.eqb (homeDir w) "")
          then flag_String "kubeconfig"
                 (filepath_Join w [homeDir w; ".kube"; "config"])
          else flag_String "kubeconfig" "").

(** The [ReloadConfig] [main] gives to [r.NewCertReloader]. *)
Definition reloadConfig (cl : CommandLine) : Reloader.ReloadConfig :=
  {| Reloader.KeyFile := parsedValue cl key;
     Reloader.CertFile := parsedValue cl cert |}.

(** The command line is accepted and both clients are constructed. *)
Definition clientsConstructed (w : World) (cl : CommandLine)
  (config : option RestConfig) (k8sClient : option KubeClient)
  (versiondClient : option AthenzClientset) : Prop :=
  commandLine w = Parsed cl /\
  BuildConfigFromFlags w "" (kubeconfigPath w cl) = (config, None) /\
  kubernetes_NewForConfig w config = (k8sClient, None) /\
  athenz_NewForConfig w config = (versiondClient, None).

(** The events of a run up to the return of [r.NewCertReloader]. *)
Definition eventsToReloader (w : World) (cl : CommandLine)
  (config : option RestConfig) : list Event :=
  [ InitLogger (flag_default logLoc) (flag_default logMode);
    CallBuildConfigFromFlags "" (kubeconfigPath w cl);
    CallKubernetesNewForConfig config;
    CallAthenzNewForConfig config;
    Log InfoLevel "Successfully constructed k8s client";
    CallNewCertReloader (reloadConfig cl) stopCh ].

(** The [Util] [main] constructs. *)
Definition utilOf (cl : CommandLine) : Util :=
  {| util_adminDomain := parsedValue cl adminDomain;
     util_systemNamespaces :=
       systemNamespaceList (parsedValue cl systemNamespaces) |}.

(** The events from the return of [createZMSClient] to the first call of
    [time.ParseDuration]. *)
Definition eventsToDurations (cl : CommandLine) : list Event :=
  [ Log InfoLevel "Sucessfully created ZMS Client";
    CallNewUtil (utilOf cl) ].

(** The [Controller] [main] constructs. *)
Definition controllerOf (cl : CommandLine) (k8sClient : option KubeClient)
  (versiondClient : option AthenzClientset) (certReloader : ReloaderPtr)
  (updatePeriod resyncPeriod delayInterval : Duration) : Controller :=
  {| ctl_k8sClient := k8sClient;
     ctl_versiondClient := versiondClient;
     ctl_zmsClient :=
       fst (createZMSClient certReloader (parsedValue cl zmsURL)
              (parsedValue cl disableKeepAlives));
     ctl_updatePeriod := updatePeriod;
     ctl_resyncPeriod := resyncPeriod;
     ctl_delayInterval := delayInterval;
     ctl_util := utilOf cl |}.

(** The three calls of [time.ParseDuration]. *)
Definition eventsOfDurations (cl : CommandLine) : list Event :=
  [ CallParseDuration (parsedValue cl updateCron);
    CallParseDuration (parsedValue cl resyncCron);
    CallParseDuration (parsedValue cl queueDelayInterval) ].

(** The events of a run that starts the controller, up to the wait for
    a signal. *)
Definition eventsToWait (w : World) (cl : CommandLine)
  (config : option RestConfig) (controller : Controller) : list Event :=
  (eventsToReloader w cl config ++ eventsToDurations cl ++
   eventsOfDurations cl ++
   [ CallNewController controller;
     Go_ControllerRun controller stopCh;
     Notify sigTerm SIGTERM;
     Notify sigTerm SIGINT ])%list.

(** The registrations of [main] with [os/signal]. *)
Definition registrations : list (Chan * Signal) :=
  [ (sigTerm, SIGINT); (sigTerm, SIGTERM) ].

(** An event is the construction of a controller. *)
Definition constructsController (e : Event) : bool :=
  match e with CallNewController _ => true | _ => false end.

(** An event is the close of the stop channel. *)
Definition closesStop (e : Event) : bool :=
  match e with Close stopCh => true | _ => false end.

(** The run stopped in the panic of the given call site. *)
Definition PanicSite_eqb (a b : PanicSite) : bool :=
  match a, b with
  | AtBuildConfig, AtBuildConfig | AtGetClients, AtGetClients
  | AtNewCertReloader, AtNewCertReloader
  | AtCreateZMSClient, AtCreateZMSClient
  | AtUpdateCron, AtUpdateCron | AtResyncCron, AtResyncCron
  | AtQueueDelay, AtQueueDelay => true
  | _, _ => false
  end.

Definition panickedAt (site : PanicSite) (outcome : unit + Stop) : bool :=
  match outcome with
  | inr (Panic at_ _) => PanicSite_eqb at_ site
  | _ => false
  end.

(** The state of a run that has parsed [cl] and done [evs]. *)
Definition after (cl : CommandLine) (evs : list Event)
  (regs : list (Chan * Signal)) : State :=
  {| events := evs; parsedFlags := Some cl; registered := regs |}.

(** The signals [main] waits for. *)
Definition terminates (sig : Signal) : bool :=
  match sig with SIGINT | SIGTERM => true | _ => false end.

End Reading.

(** ** A world to run [main] in *)
Module Sample.

(** Certificates as the pair of PEM texts they were parsed from; a text
    parses when it starts with a dash. *)
Definition pemLike (s : string) : bool :=
  match s with
  | String "-" _ => true
  | _ => false
  end.

Definition externals : Externals :=
  {| RestConfig := string;
     KubeClient := string;
     AthenzClientset := string;
     Certificate := string * string;
     CertificateRequestInfo := unit;
     SupportsCertificate := fun _ _ => true;
     emptyCertificate := ("", "");
     X509KeyPair := fun certPEM keyPEM =>
       if pemLike certPEM && pemLike keyPEM then inl (certPEM, keyPEM)
       else inr "tls: failed to find any PEM data in certificate input" |}.

Definition durations (s : string) : Duration * error :=
  if String.eqb s "1m0s" then (60000000000%Z, None)
  else if String.eqb s "1h0m0s" then (3600000000000%Z, None)
  else if String.eqb s "250ms" then (250000000%Z, None)
  else if String.eqb s "30s" then (30000000000%Z, None)
  else (0%Z, Some ("time: invalid duration " ++ s)).

Definition getenv (home : string) (name : string) : string :=
  if String.eqb name "HOME" then home else "".

(** The flags of a command line, as a list of names and values. *)
Fixpoint lookup {A} (l : list (string * A)) (name : string) : option A :=
  match l with
  | [] => None
  | (n, v) :: rest => if String.eqb n name then Some v else lookup rest name
  end.

Definition flags (strs : list (string * string)) (bools : list (string * bool))
  : CommandLine :=
  {| stringFlags := lookup strs; boolFlags := lookup bools |}.

(** A call that fails when an error is given for it. *)
Definition answer {A} (ok : A) (failed : A) (err : error) : A * error :=
  match err with
  | None => (ok, None)
  | Some _ => (failed, err)
  end.

Definition world (cl : CommandLine)
  (buildErr kubeErr athenzErr reloaderErr : error) (sigs : list Signal)
  : @World externals :=
  @Build_World externals
    (* Getenv *) (getenv "/home/syncer")
    (* filepath_Join *) (strings.Join1 "/")
    (* commandLine *) (Parsed cl)
    (* BuildConfigFromFlags *)
    (fun _ path => answer (A := option string) (Some path) None buildErr)
    (* kubernetes_NewForConfig *)
    (fun _ => answer (A := option string) (Some "clientset") None kubeErr)
    (* athenz_NewForConfig *)
    (fun _ => answer (A := option string) (Some "versioned") None athenzErr)
    (* NewCertReloader *)
    (fun _ _ => answer (reloaderAt 1) nilReloader reloaderErr)
    (* ParseDuration *) durations
    (* signals *) sigs.

Definition noFlags : CommandLine := flags [] [].

(** Runs: one that starts the controller and is signalled, one that is
    never signalled, and one for each call that can fail. *)
Definition signalled : @World externals :=
  world noFlags None None None None [SIGUSR1; SIGTERM; SIGINT].

Definition neverSignalled : @World externals :=
  world noFlags None None None None [SIGUSR1; SIGUSR2].

Definition noPEM : string :=
  "tls: failed to find any PEM data in certificate input".

Definition reloaderFails : @World externals :=
  world noFlags None None None (Some noPEM) [].

Definition buildFails : @World externals :=
  world noFlags (Some "unable to load in-cluster configuration") None None
    None [].

Definition kubeFails : @World externals :=
  world noFlags None (Some "host must be a URL") None None [].

Definition athenzFails : @World externals :=
  world noFlags None None (Some "host must be a URL") None [].

(** Command lines: out of the cluster with doubled commas in the
    namespaces, a resync interval that is no duration, and a kubeconfig
    given while in the cluster. *)
Definition outOfClusterFlags : CommandLine :=
  flags [("system-namespaces", "kube-system,,kube-public")]
        [("inClusterConfig", false)].

Definition outOfCluster : @World externals :=
  world outOfClusterFlags None None None None [SIGINT].

Definition badResyncFlags : CommandLine :=
  flags [("resync-cron", "soon"); ("update-cron", "30s")] [].

Definition badResync : @World externals :=
  world badResyncFlags None None None None [SIGINT].

Definition kubeconfigGivenFlags : CommandLine :=
  flags [("kubeconfig", "/etc/kubeconfig")] [].

Definition kubeconfigGiven : @World externals :=
  world kubeconfigGivenFlags None None None None [SIGINT].

(** A reloader object holding one parsed pair. *)
Definition reloader (certPEM keyPEM : string)
  : Reloader.CertReloader (string * string) :=
  {| Reloader.config :=
       {| Reloader.KeyFile := "/var/run/athenz/service.key.pem";
          Reloader.CertFile := "/var/run/athenz/service.cert.pem" |};
     Reloader.current :=
       Some {| Reloader.bundle_certificate := (certPEM, keyPEM);
               Reloader.bundle_loaded := 0 |};
     Reloader.in_progress := None;
     Reloader.logged := [] |}.

Definition heap (certPEM keyPEM : string) : @Heap externals :=
  fun a => if Nat.eqb a 1 then Some (reloader certPEM keyPEM) else None.

(** A disk with the two default files. *)
Definition disk (certPEM keyPEM : string) : Reloader.Files :=
  fun path =>
    if String.eqb path "/var/run/athenz/service.cert.pem" then Some certPEM
    else if String.eqb path "/var/run/athenz/service.key.pem" then Some keyPEM
    else None.

Definition badDisk : Reloader.Files := disk "garbage" "-----BEGIN KEY".

Definition goodDisk : Reloader.Files :=
  disk "-----BEGIN CERTIFICATE" "-----BEGIN KEY".

Definition defaultPaths : Reloader.ReloadConfig :=
  {| Reloader.KeyFile := "/var/run/athenz/service.key.pem";
     Reloader.CertFile := "/var/run/athenz/service.cert.pem" |}.

(** A reload of unparsable files, and a second one under way. *)
Definition badReloads : list Reloader.Tick :=
  [Reloader.BeginReload badDisk; Reloader.FinishReload 7;
   Reloader.BeginReload badDisk].

End Sample.

(** ** More ways to read a run *)
Section Comparing.
Context {X : Externals}.

(** The same world with another command line. *)
Definition withCommandLine (w : World) (c : ParseOutcome) : World :=
  {| Getenv := Getenv w;
     filepath_Join := filepath_Join w;
     commandLine := c;
     BuildConfigFromFlags := BuildConfigFromFlags w;
     kubernetes_NewForConfig := kubernetes_NewForConfig w;
     athenz_NewForConfig := athenz_NewForConfig w;
     NewCertReloader := NewCertReloader w;
     ParseDuration := ParseDuration w;
     signals := signals w |}.

(** Two command lines that differ at most in [log-location] and
    [log-mode]. *)
Definition sameButLogFlags (cl cl' : CommandLine) : Prop :=
  (forall name, boolFlags cl' name = boolFlags cl name) /\
  (forall name,
     name <> "log-location" -> name <> "log-mode" ->
     stringFlags cl' name = stringFlags cl name).

(** An event is the start of the controller's goroutine. *)
Definition startsController (e : Event) : bool :=
  match e with Go_ControllerRun _ _ => true | _ => false end.

(** An event is a call of [r.NewCertReloader]. *)
Definition callsNewCertReloader (e : Event) : bool :=
  match e with CallNewCertReloader _ _ => true | _ => false end.

(** A name a namespace list can hold: not empty and without a comma. *)
Definition namespaceName (ns : string) : Prop :=
  ns <> "" /\ strings.ContainsByte "," ns = false.

End Comparing.

(** Command lines that set the log flags, and a list of names. *)
Module MoreSamples.

Definition logFlags : CommandLine :=
  Sample.flags [("log-location", "/tmp/syncer.log"); ("log-mode", "debug")]
               [].

Definition systemNames : list string := ["kube-system"; "kube-public"].

End MoreSamples.

(** * Properties *)

(** ** [strings.Split] *)

Lemma Split1_cons (sep : ascii) (s : string) :
  exists piece pieces, strings.Split1 sep s = piece :: pieces.
Proof.
  destruct s as [|c rest]; simpl.
  - now exists EmptyString, [].
  - destruct (Ascii.eqb c sep).
    + now exists EmptyString, (strings.Split1 sep rest).
    + destruct (strings.Split1 sep rest) as [|p ps].
      * now exists (String c EmptyString), [].
      * now exists (String c p), ps.
Qed.

(** Joining the pieces with the separator gives the string back. *)
Lemma Join1_Split1 (sep : ascii) (s : string) :
  strings.Join1 sep (strings.Split1 sep s) = s.
Proof.
  induction s as [|c rest IH]; simpl; [reflexivity|].
  destruct (Ascii.eqb c sep) eqn:E.
  - apply Ascii.eqb_eq in E; subst c.
    destruct (Split1_cons sep rest) as (p & ps & Hp).
    rewrite Hp in *. simpl. now rewrite <- IH.
  - destruct (strings.Split1 sep rest) as [|p ps] eqn:Hp.
    + destruct (Split1_cons sep rest) as (p & ps & Hp'); congruence.
    + destruct ps as [|q qs]; simpl in *; now rewrite IH.
Qed.

(** No piece holds the separator. *)
Lemma Split1_pieces (sep : ascii) (s : string) :
  Forall (fun piece => strings.ContainsByte sep piece = false)
         (strings.Split1 sep s).
Proof.
  induction s as [|c rest IH]; simpl.
  - now repeat constructor.
  - destruct (Ascii.eqb c sep) eqn:E.
    + now constructor.
    + destruct (strings.Split1 sep rest) as [|p ps].
      * repeat constructor. simpl. now rewrite E.
      * inversion IH; subst. constructor; [|assumption].
        simpl. now rewrite E.
Qed.

(** There is one piece more than there are separators. *)
Lemma Split1_length (sep : ascii) (s : string) :
  List.length (strings.Split1 sep s) = S (strings.Count1 sep s).
Proof.
  induction s as [|c rest IH]; simpl; [reflexivity|].
  destruct (Ascii.eqb c sep); simpl.
  - now rewrite IH.
  - destruct (strings.Split1 sep rest); simpl in *; congruence.
Qed.

(** ** The namespace loop *)

Lemma fold_appendNonEmpty (items acc : list string) :
  fold_left appendNonEmpty items acc = (acc ++ filter nonEmpty items)%list.
Proof.
  revert acc. induction items as [|item items IH]; intro acc; simpl.
  - now rewrite app_nil_r.
  - rewrite IH. unfold appendNonEmpty, nonEmpty.
    destruct (String.eqb item ""); simpl; [reflexivity|].
    now rewrite <- app_assoc.
Qed.

(** The loop keeps the non-empty items, in their order. *)
Lemma processNamespaces_filter (items : list string) :
  processNamespaces items = filter nonEmpty items.
Proof. unfold processNamespaces. now rewrite fold_appendNonEmpty. Qed.

Lemma systemNamespaceList_filter (v : string) :
  systemNamespaceList v = filter nonEmpty (strings.Split v).
Proof. apply processNamespaces_filter. Qed.

Lemma systemNamespaceList_nonEmpty (v : string) :
  Forall (fun ns => ns <> "") (systemNamespaceList v).
Proof.
  rewrite systemNamespaceList_filter. apply Forall_forall.
  intros ns H. apply filter_In in H. destruct H as [_ H].
  unfold nonEmpty in H. intros ->. discriminate.
Qed.

(** ** Runs of [main] *)
Section Runs.
Context {X : Externals}.
Variable w : World.

#[local] Arguments flagValue : simpl never.
#[local] Arguments strings.Split1 : simpl never.
#[local] Arguments String.append : simpl never.
#[local] Arguments processNamespaces : simpl never.
#[local] Arguments relayed : simpl never.

(** Unfolding a run down to the calls it makes. *)
Ltac run :=
  repeat progress
    unfold runMain, main, mainWithZMSClient, runUntilSignal, getClients,
      bind, ret, star, emit, stop, defer, flag_Parse, log_InitLogger,
      log_Info, log_Panicf, log_Panicln, fmt_Errorf, signal_Notify, receive,
      time_ParseDuration, util_NewUtil, controller_NewController;
  simpl.

(** One case per way the calls of a run can be answered. *)
Ltac answers :=
  repeat (simpl;
    match goal with
    | |- context [commandLine w] => destruct (commandLine w) eqn:?
    | |- context [if flagValue ?p ?f then _ else _] =>
        destruct (flagValue p f) eqn:?
    | |- context [BuildConfigFromFlags w ?a ?b] =>
        destruct (BuildConfigFromFlags w a b) as [? [?|]] eqn:?
    | |- context [kubernetes_NewForConfig w ?a] =>
        destruct (kubernetes_NewForConfig w a) as [? [?|]] eqn:?
    | |- context [athenz_NewForConfig w ?a] =>
        destruct (athenz_NewForConfig w a) as [? [?|]] eqn:?
    | |- context [NewCertReloader w ?a ?b] =>
        destruct (NewCertReloader w a b) as [? [?|]] eqn:?
    | |- context [ParseDuration w ?a] =>
        destruct (ParseDuration w a) as [? [?|]] eqn:?
    | |- context [find ?f (signals w)] =>
        destruct (find f (signals w)) eqn:?
    end).

(** Answering the calls of a run from the hypotheses. *)
Ltac expose :=
  repeat progress
    unfold clientsConstructed, kubeconfigPath, reloadConfig, utilOf,
      eventsToReloader, eventsToDurations, eventsOfDurations, eventsToWait,
      controllerOf, registrations, systemNamespaceList, after,
      parsedValue in *.

Ltac feed :=
  repeat (simpl in *;
    match goal with
    | H : _ /\ _ |- _ => destruct H
    | H : commandLine w = _ |- context [commandLine w] => rewrite H
    | H : flagValue ?p ?f = _ |- context [flagValue ?p ?f] => rewrite H
    | H : context [if flagValue ?p ?f then _ else _] |- _ =>
        destruct (flagValue p f) eqn:?
    | |- context [if flagValue ?p ?f then _ else _] =>
        destruct (flagValue p f) eqn:?
    | H : BuildConfigFromFlags w ?a ?b = _
      |- context [BuildConfigFromFlags w ?a ?b] => rewrite H
    | H : kubernetes_NewForConfig w ?a = _
      |- context [kubernetes_NewForConfig w ?a] => rewrite H
    | H : athenz_NewForConfig w ?a = _
      |- context [athenz_NewForConfig w ?a] => rewrite H
    | H : NewCertReloader w ?a ?b = _
      |- context [NewCertReloader w ?a ?b] => rewrite H
    | H : ParseDuration w ?a = _
      |- context [ParseDuration w ?a] => rewrite H
    | H : find ?f (signals w) = _
      |- context [find ?f (signals w)] => rewrite H
    end);
  simpl in *.

(** C3.  When the clients are constructed and [r.NewCertReloader]
    returns an error, [main] logs "Error occurred when creating new
    reloader" with the error and panics there: nothing else happens
    after the call, and the pointer returned with the error is not
    used. *)
Theorem reloader_failure_is_fatal cl config k8s versiond certReloader msg :
  clientsConstructed w cl config k8s versiond ->
  NewCertReloader w (reloadConfig cl) stopCh = (certReloader, Some msg) ->
  runMain w =
    (after cl
       (eventsToReloader w cl config ++
        [Log PanicLevel
           ("Error occurred when creating new reloader. Error: " ++ msg)])
       [],
     inr (Panic AtNewCertReloader
            ("Error occurred when creating new reloader. Error: " ++ msg))).
Proof.
  intros Hclients Hreloader. expose. run. feed; reflexivity.
Qed.

(** C5.  A failure to build the cluster configuration panics inside
    [getClients], with the error logged; a failure to construct either
    cluster client comes back from [getClients] as an error, on which
    [main] logs and panics; and [main] logs and panics on an error
    returned with the ZMS client.  In each case the run ends there. *)
Theorem client_construction_failure_is_fatal cl :
  commandLine w = Parsed cl ->
  let begun :=
    [ InitLogger (flag_default logLoc) (flag_default logMode);
      CallBuildConfigFromFlags "" (kubeconfigPath w cl) ] in
  (forall config msg,
     BuildConfigFromFlags w "" (kubeconfigPath w cl) = (config, Some msg) ->
     runMain w =
       (after cl (begun ++ [Log PanicLevel msg]) [],
        inr (Panic AtBuildConfig msg)))
  /\
  (forall config k8s msg,
     BuildConfigFromFlags w "" (kubeconfigPath w cl) = (config, None) ->
     kubernetes_NewForConfig w config = (k8s, Some msg) ->
     let cause :=
       "Error occurred when creating clients. Error: " ++
       "Failed to create k8s client from config. Error: " ++ msg in
     runMain w =
       (after cl
          (begun ++ [CallKubernetesNewForConfig config; Log PanicLevel cause])
          [],
        inr (Panic AtGetClients cause)))
  /\
  (forall config k8s versiond msg,
     BuildConfigFromFlags w "" (kubeconfigPath w cl) = (config, None) ->
     kubernetes_NewForConfig w config = (k8s, None) ->
     athenz_NewForConfig w config = (versiond, Some msg) ->
     let cause :=
       "Error occurred when creating clients. Error: " ++
       "Failed to create versiond client from config. Error: " ++ msg in
     runMain w =
       (after cl
          (begun ++ [CallKubernetesNewForConfig config;
                     CallAthenzNewForConfig config;
                     Log PanicLevel cause])
          [],
        inr (Panic AtGetClients cause)))
  /\
  (forall k8s versiond zmsClient msg s,
     let cause := "Error occurred when creating zms client. Error: " ++ msg in
     mainWithZMSClient w k8s versiond (zmsClient, Some msg) s =
       ({| events := (events s ++ [Log PanicLevel cause])%list;
           parsedFlags := parsedFlags s;
           registered := registered s |},
        inr (Panic AtCreateZMSClient cause))).
Proof.
  intros Hcl begun. subst begun. split; [|split; [|split]].
  - intros config msg Hb. expose. run. feed; reflexivity.
  - intros config k8s msg Hb Hk cause. subst cause. expose. run.
    feed; reflexivity.
  - intros config k8s versiond msg Hb Hk Ha cause. subst cause. expose. run.
    feed; reflexivity.
  - intros k8s versiond zmsClient msg s cause. subst cause. run. reflexivity.
Qed.

(** C9.  [createZMSClient] returns a nil error whatever it is given, and
    no run of [main] ends in the panic that answers an error from it. *)
Theorem createZMSClient_never_fails :
  (forall reloader url keepAlivesOff,
     snd (createZMSClient reloader url keepAlivesOff) = None) /\
  (forall k8s versiond reloader url keepAlivesOff s,
     panickedAt AtCreateZMSClient
       (snd (mainWithZMSClient w k8s versiond
               (createZMSClient reloader url keepAlivesOff) s)) = false) /\
  panickedAt AtCreateZMSClient (snd (runMain w)) = false.
Proof.
  split; [reflexivity | split].
  - intros. run. answers; reflexivity.
  - run. answers; reflexivity.
Qed.

(** C4.  A value of [update-cron], [resync-cron] or
    [queue-delay-interval] that [time.ParseDuration] rejects makes the
    run end in a panic whose cause was logged last, with no controller
    constructed; once the run reaches the durations the panic is the one
    of the first rejected flag, in the order update, resync, delay, with
    the parser's error in its message; and when the three parse, the one
    controller constructed receives the three parsed durations. *)
Theorem duration_flags_checked cl :
  commandLine w = Parsed cl ->
  let update := ParseDuration w (parsedValue cl updateCron) in
  let resync := ParseDuration w (parsedValue cl resyncCron) in
  let delay := ParseDuration w (parsedValue cl queueDelayInterval) in
  (is_nil (snd update) && is_nil (snd resync) && is_nil (snd delay) = false ->
   exists s site cause,
     runMain w = (s, inr (Panic site cause)) /\
     last (events s) (Log InfoLevel "") = Log PanicLevel cause /\
     filter constructsController (events s) = [])
  /\
  (forall config k8s versiond certReloader,
     clientsConstructed w cl config k8s versiond ->
     NewCertReloader w (reloadConfig cl) stopCh = (certReloader, None) ->
     let reached := (eventsToReloader w cl config ++ eventsToDurations cl)%list in
     match snd update, snd resync, snd delay with
     | Some msg, _, _ =>
         let cause := "Update Cron interval input is invalid. Error: " ++ msg in
         runMain w =
           (after cl
              (reached ++
               [CallParseDuration (parsedValue cl updateCron);
                Log PanicLevel cause]) [],
            inr (Panic AtUpdateCron cause))
     | None, Some msg, _ =>
         let cause :=
           "Full Resync Cron interval input is invalid. Error: " ++ msg in
         runMain w =
           (after cl
              (reached ++
               [CallParseDuration (parsedValue cl updateCron);
                CallParseDuration (parsedValue cl resyncCron);
                Log PanicLevel cause]) [],
            inr (Panic AtResyncCron cause))
     | None, None, Some msg =>
         let cause := "Queue delay input is invalid. Error: " ++ msg in
         runMain w =
           (after cl
              (reached ++ eventsOfDurations cl ++ [Log PanicLevel cause]) [],
            inr (Panic AtQueueDelay cause))
     | None, None, None =>
         exists s outcome,
           runMain w = (s, outcome) /\
           filter constructsController (events s) =
             [CallNewController
                (controllerOf cl k8s versiond certReloader
                   (fst update) (fst resync) (fst delay))]
     end).
Proof.
  intros Hcl update resync delay. subst update resync delay. split.
  - expose. run. rewrite Hcl.
    answers;
      try (intros _; eexists _, _, _; split; [reflexivity|];
           split; reflexivity);
      intros; discriminate.
  - intros config k8s versiond certReloader Hclients Hreloader reached.
    subst reached. expose.
    destruct (ParseDuration w (flagValue (Some cl) updateCron))
      as [d1 [m1|]] eqn:H1;
    [|destruct (ParseDuration w (flagValue (Some cl) resyncCron))
        as [d2 [m2|]] eqn:H2;
      [|destruct (ParseDuration w (flagValue (Some cl) queueDelayInterval))
          as [d3 [m3|]] eqn:H3]];
    simpl; run; feed; try reflexivity;
    answers; eexists _, _; split; reflexivity.
Qed.

(** What [os/signal] relays to [sigTerm] under the registrations of
    [main] is what [terminates] accepts. *)
Lemma find_relayed (s : State) (sigs : list Signal) :
  registered s = registrations ->
  find (relayed s sigTerm) sigs = find terminates sigs.
Proof.
  intros Hr. induction sigs as [|sig sigs IH]; simpl; [reflexivity|].
  rewrite IH. unfold relayed. rewrite Hr.
  now destruct sig.
Qed.

Lemma find_terminates (sigs : list Signal) (sig : Signal) :
  find terminates sigs = Some sig -> sig = SIGINT \/ sig = SIGTERM.
Proof.
  intros H. apply find_some in H. destruct H as [_ H].
  destruct sig; simpl in H; try discriminate; auto.
Qed.

(** C6, as far as [main] goes.  [main] returns only on a SIGINT or
    SIGTERM, and then the last two things it did are the receive and the
    close of [stopCh].  With the controller constructed, [main] starts
    it on [stopCh], the channel it gave to [r.NewCertReloader],
    registers for SIGTERM and SIGINT and blocks.  Without such a signal
    it stays blocked and [stopCh] stays open.  On the first one it
    closes [stopCh] and returns: the close is the last thing it does,
    and nothing in between waits for the controller. *)
Theorem main_runs_until_signal :
  (forall s,
     runMain w = (s, inl tt) ->
     exists sig before,
       find terminates (signals w) = Some sig /\
       events s = (before ++ [Receive sigTerm sig; Close stopCh])%list) /\
  (forall cl config k8s versiond certReloader
          updatePeriod resyncPeriod delayInterval,
     clientsConstructed w cl config k8s versiond ->
     NewCertReloader w (reloadConfig cl) stopCh = (certReloader, None) ->
     ParseDuration w (parsedValue cl updateCron) = (updatePeriod, None) ->
     ParseDuration w (parsedValue cl resyncCron) = (resyncPeriod, None) ->
     ParseDuration w (parsedValue cl queueDelayInterval) =
       (delayInterval, None) ->
     let controller :=
       controllerOf cl k8s versiond certReloader
         updatePeriod resyncPeriod delayInterval in
     let waiting := eventsToWait w cl config controller in
     match find terminates (signals w) with
     | None =>
         runMain w = (after cl waiting registrations, inr Blocked) /\
         filter closesStop waiting = []
     | Some sig =>
         runMain w =
           (after cl (waiting ++ [Receive sigTerm sig; Close stopCh])
              registrations,
            inl tt) /\
         (sig = SIGINT \/ sig = SIGTERM)
     end).
Proof.
  split.
  - intros s. set (first := find terminates (signals w)). run.
    answers; intros [= <-]; subst first;
      match goal with
      | H : find _ (signals w) = Some ?sig |- _ =>
          rewrite find_relayed in H by reflexivity; exists sig;
          match goal with
          | |- exists before, _ /\ ?evs = _ =>
              exists (removelast (removelast evs))
          end;
          split; [exact H | reflexivity]
      end.
  - intros cl config k8s versiond certReloader
           updatePeriod resyncPeriod delayInterval
           Hclients Hreloader Hu Hr Hd controller waiting.
    subst controller waiting.
    destruct (find terminates (signals w)) as [sig|] eqn:Hsig.
    + split; [|now apply find_terminates with (signals w)].
      expose. run. feed.
      all: rewrite find_relayed by reflexivity; rewrite Hsig; reflexivity.
    + split; [|reflexivity].
      expose. run. feed.
      all: rewrite find_relayed by reflexivity; rewrite Hsig; reflexivity.
Qed.

(** C7.  [getClients] calls [clientcmd.BuildConfigFromFlags] first, with
    an empty master URL and a path that is empty when [inClusterConfig]
    is true, whatever [kubeconfig] was given; when it is false the path
    is the [kubeconfig] given or, by default, [.kube/config] joined to
    $HOME, to $USERPROFILE when $HOME is empty, and empty when both
    are.  [inClusterConfig] itself defaults to true. *)
Theorem kubeconfig_path_selection cl :
  commandLine w = Parsed cl ->
  let inCluster :=
    match boolFlags cl "inClusterConfig" with Some b => b | None => true end in
  let path :=
    if inCluster then ""
    else match stringFlags cl "kubeconfig" with
         | Some given => given
         | None =>
             if negb (String.eqb (Getenv w "HOME") "")
             then filepath_Join w [Getenv w "HOME"; ".kube"; "config"]
             else if negb (String.eqb (Getenv w "USERPROFILE") "")
             then filepath_Join w [Getenv w "USERPROFILE"; ".kube"; "config"]
             else ""
         end in
  kubeconfigPath w cl = path /\
  exists s outcome,
    getClients w inClusterConfig start = (s, outcome) /\
    hd_error (events s) = Some (CallBuildConfigFromFlags "" path).
Proof.
  intros Hcl inCluster path.
  assert (Hpath : kubeconfigPath w cl = path).
  { subst path inCluster.
    unfold kubeconfigPath, parsedValue, flagValue, homeDir. simpl.
    destruct (boolFlags cl "inClusterConfig") as [[|]|]; try reflexivity.
    destruct (String.eqb (Getenv w "HOME") "") eqn:Ehome; simpl;
      rewrite ?Ehome; simpl;
      [destruct (String.eqb (Getenv w "USERPROFILE") "") eqn:Eprofile|];
      simpl; rewrite ?Eprofile; simpl;
      now destruct (stringFlags cl "kubeconfig"). }
  split; [exact Hpath|]. rewrite <- Hpath. clear Hpath.
  expose. run. rewrite Hcl.
  answers; eexists _, _; split; reflexivity.
Qed.

(** The one call of [util.NewUtil] in a run carries the [Util] built
    from the parsed command line. *)
Lemma main_NewUtil (s : State) (outcome : unit + Stop) (u : Util) :
  runMain w = (s, outcome) ->
  In (CallNewUtil u) (events s) ->
  exists cl, commandLine w = Parsed cl /\ u = utilOf cl.
Proof.
  expose. run.
  answers; intros [= <- <-] Hin; simpl in Hin;
    repeat (destruct Hin as [Hin|Hin]; try discriminate Hin);
    try contradiction;
    injection Hin as <-; eexists; split; reflexivity.
Qed.

(** C8, amended.  The list [main] passes to [util.NewUtil] is the list
    of the non-empty pieces of the [system-namespaces] value, in their
    order; the pieces are those between the commas: they hold no comma,
    and joined by commas they give the value back. *)
Theorem system_namespaces_nonempty_components s outcome u :
  runMain w = (s, outcome) ->
  In (CallNewUtil u) (events s) ->
  exists cl,
    commandLine w = Parsed cl /\
    util_systemNamespaces u =
      filter nonEmpty (strings.Split (parsedValue cl systemNamespaces)) /\
    strings.Join1 "," (strings.Split (parsedValue cl systemNamespaces)) =
      parsedValue cl systemNamespaces /\
    Forall (fun piece => strings.ContainsByte "," piece = false)
           (strings.Split (parsedValue cl systemNamespaces)).
Proof.
  intros Hrun Hin.
  destruct (main_NewUtil u Hrun Hin) as (cl & Hcl & ->).
  exists cl. split; [exact Hcl|]. split; [|split].
  - apply systemNamespaceList_filter.
  - apply Join1_Split1.
  - apply Split1_pieces.
Qed.

(** C10.  No name in the list [main] passes to [util.NewUtil] is empty,
    and the list is empty when the flag is not set; the pieces that
    leading, trailing and doubled commas leave empty are dropped. *)
Theorem system_namespaces_without_empty_name s outcome u :
  runMain w = (s, outcome) ->
  In (CallNewUtil u) (events s) ->
  Forall (fun ns => ns <> "") (util_systemNamespaces u) /\
  (exists cl,
     commandLine w = Parsed cl /\
     (stringFlags cl "system-namespaces" = None ->
      util_systemNamespaces u = [])) /\
  strings.Split "" = [""] /\
  systemNamespaceList "" = [] /\
  systemNamespaceList ",kube-system,,kube-public," =
    ["kube-system"; "kube-public"].
Proof.
  intros Hrun Hin.
  destruct (main_NewUtil u Hrun Hin) as (cl & Hcl & ->).
  split; [apply systemNamespaceList_nonEmpty|].
  split; [|repeat split].
  exists cl. split; [exact Hcl|].
  intros Hunset. unfold utilOf, parsedValue, flagValue. simpl.
  now rewrite Hunset.
Qed.

End Runs.

(** ** The credential store and the client's handshakes *)
Section Credentials.
Context {X : Externals}.

Lemma LoadX509KeyPair_parsed disk cfg c :
  Reloader.LoadX509KeyPair X509KeyPair disk cfg = inl c ->
  Reloader.parsed X509KeyPair c.
Proof.
  unfold Reloader.LoadX509KeyPair, Reloader.parsed.
  destruct (disk (Reloader.CertFile cfg)) as [certPEM|];
    destruct (disk (Reloader.KeyFile cfg)) as [keyPEM|];
    try discriminate.
  intros H. now exists certPEM, keyPEM.
Qed.

Lemma NewCertReloader_serving cfg disk now r :
  Reloader.NewCertReloader X509KeyPair cfg disk now = (Some r, None) ->
  Reloader.serving X509KeyPair r.
Proof.
  unfold Reloader.NewCertReloader.
  destruct (Reloader.LoadX509KeyPair X509KeyPair disk cfg) as [c|msg] eqn:Hload;
    [|discriminate].
  intros [= <-]. split; simpl.
  - eexists. split; [reflexivity|]. simpl.
    now apply LoadX509KeyPair_parsed with disk cfg.
  - discriminate.
Qed.

Lemma tick_serving r t :
  Reloader.serving X509KeyPair r ->
  Reloader.serving X509KeyPair (Reloader.tick X509KeyPair r t).
Proof.
  intros [(b & Hb & Hparsed) Hnext]. destruct t as [disk|now]; simpl.
  - split; simpl.
    + now exists b.
    + intros c [= Hc]. now apply LoadX509KeyPair_parsed in Hc.
  - unfold Reloader.finishReload.
    destruct (Reloader.in_progress r) as [[c|msg]|] eqn:Hp.
    + split; simpl; [|discriminate].
      eexists. split; [reflexivity|]. simpl. now apply Hnext.
    + split; simpl; [now exists b|discriminate].
    + split; [now exists b|]. now rewrite Hp.
Qed.

Lemma run_serving ticks r :
  Reloader.serving X509KeyPair r ->
  Reloader.serving X509KeyPair (Reloader.run X509KeyPair ticks r).
Proof.
  revert r. induction ticks as [|t ticks IH]; intros r Hr; simpl.
  - exact Hr.
  - apply IH. now apply tick_serving.
Qed.

(** C1.  After a [NewCertReloader] that returned no error, and whatever
    the reload thread has done since, a reload in progress included,
    [GetLatestCertificate] returns a certificate that was parsed, and
    that is the one a handshake of the ZMS client gets; a reload that
    has read its files and not yet published, and a reload whose files
    do not parse, leave the current bundle as it was. *)
Theorem GetLatestCertificate_after_startup cfg disk now r ticks :
  Reloader.NewCertReloader X509KeyPair cfg disk now = (Some r, None) ->
  let r' := Reloader.run X509KeyPair ticks r in
  (exists c,
     Reloader.GetLatestCertificate r' = Some c /\
     Reloader.parsed X509KeyPair c /\
     forall address (heap : Heap) url keepAlivesOff cri,
       heap address = Some r' ->
       exists client,
         createZMSClient (reloaderAt address) url keepAlivesOff =
           (Some client, None) /\
         handshakeCertificate client heap cri = Returns (Some c, None)) /\
  (forall disk',
     Reloader.current (Reloader.beginReload X509KeyPair disk' r') =
     Reloader.current r') /\
  (forall disk' now' msg,
     Reloader.LoadX509KeyPair X509KeyPair disk' (Reloader.config r') =
       inr msg ->
     Reloader.current (Reloader.reload X509KeyPair disk' now' r') =
     Reloader.current r').
Proof.
  intros Hnew r'.
  assert (Hserving : Reloader.serving X509KeyPair r').
  { apply run_serving. now apply NewCertReloader_serving with cfg disk now. }
  destruct Hserving as [(b & Hb & Hparsed) _].
  split; [|split].
  - exists (Reloader.bundle_certificate b).
    split; [unfold Reloader.GetLatestCertificate; now rewrite Hb|].
    split; [exact Hparsed|].
    intros address heap url keepAlivesOff cri Hheap.
    eexists. split; [reflexivity|].
    unfold handshakeCertificate, getClientCertificate, GetLatestCertificate.
    simpl. rewrite Hheap.
    unfold Reloader.GetLatestCertificate. now rewrite Hb.
  - reflexivity.
  - intros disk' now' msg Hload.
    unfold Reloader.reload, Reloader.finishReload, Reloader.beginReload.
    simpl. now rewrite Hload.
Qed.

(** C2.  The client [createZMSClient] returns carries no certificate of
    its own: its transport's TLS configuration has an empty certificate
    list and a callback, and the client certificate of any handshake, on
    the heap of that moment, is what [GetLatestCertificate] then returns
    for the reloader, with a nil error. *)
Theorem handshake_reads_current_certificate reloader url keepAlivesOff :
  exists client transport config,
    createZMSClient reloader url keepAlivesOff = (Some client, None) /\
    URL client = url /\
    Transport client = Some transport /\
    DisableKeepAlives transport = keepAlivesOff /\
    TLSClientConfig transport = Some config /\
    Certificates config = [] /\
    forall (heap : Heap) cri,
      handshakeCertificate client heap cri =
        match deref heap reloader with
        | Some r => Returns (Reloader.GetLatestCertificate r, None)
        | None => Panics "invalid memory address or nil pointer dereference"
        end.
Proof.
  do 3 eexists. repeat (split; [reflexivity|]).
  intros heap cri.
  unfold handshakeCertificate, getClientCertificate, GetLatestCertificate.
  simpl. now destruct (deref heap reloader).
Qed.

End Credentials.

(** The same client, two moments: after a reload has published, the
    handshake presents the new certificate. *)
Example handshake_follows_reload :
  exists client,
    createZMSClient (X := Sample.externals) (reloaderAt 1)
      "https://zms.athenz.example:4443/zms/v1" true = (Some client, None) /\
    handshakeCertificate client (Sample.heap "-----BEGIN A" "-----KEY A") tt =
      Returns (Some ("-----BEGIN A", "-----KEY A"), None) /\
    handshakeCertificate client (Sample.heap "-----BEGIN B" "-----KEY B") tt =
      Returns (Some ("-----BEGIN B", "-----KEY B"), None) /\
    handshakeCertificate
      (Build_ZMSClient (X := Sample.externals) "" None)
      (Sample.heap "-----BEGIN B" "-----KEY B") tt =
      Returns (Some ("", ""), None).
Proof. eexists. repeat split. Qed.


(** ** The theorems at work on sample runs *)

Lemma GetLatestCertificate_after_startup_witness :
  Reloader.NewCertReloader (@X509KeyPair Sample.externals)
    Sample.defaultPaths Sample.goodDisk 0 =
    (Some (Sample.reloader "-----BEGIN CERTIFICATE" "-----BEGIN KEY"), None) /\
  exists c,
    Reloader.GetLatestCertificate
      (Reloader.run (@X509KeyPair Sample.externals) Sample.badReloads
         (Sample.reloader "-----BEGIN CERTIFICATE" "-----BEGIN KEY")) =
      Some c /\
    Reloader.parsed (@X509KeyPair Sample.externals) c.
Proof.
  assert (Hnew :
    Reloader.NewCertReloader (@X509KeyPair Sample.externals)
      Sample.defaultPaths Sample.goodDisk 0 =
      (Some (Sample.reloader "-----BEGIN CERTIFICATE" "-----BEGIN KEY"), None))
    by reflexivity.
  split; [exact Hnew|].
  destruct (@GetLatestCertificate_after_startup Sample.externals
              Sample.defaultPaths Sample.goodDisk 0
              (Sample.reloader "-----BEGIN CERTIFICATE" "-----BEGIN KEY")
              Sample.badReloads Hnew) as [(c & Hc & Hparsed & _) _].
  exists c. split; assumption.
Defined.

Lemma reloader_failure_is_fatal_witness :
  clientsConstructed Sample.reloaderFails Sample.noFlags
    (Some "") (Some "clientset") (Some "versioned") /\
  NewCertReloader Sample.reloaderFails (reloadConfig Sample.noFlags) stopCh =
    (nilReloader, Some Sample.noPEM) /\
  snd (runMain Sample.reloaderFails) =
    inr (Panic AtNewCertReloader
           ("Error occurred when creating new reloader. Error: " ++
            Sample.noPEM)).
Proof.
  assert (Hc : clientsConstructed Sample.reloaderFails Sample.noFlags
                 (Some "") (Some "clientset") (Some "versioned"))
    by (repeat split).
  assert (Hr : NewCertReloader Sample.reloaderFails
                 (reloadConfig Sample.noFlags) stopCh =
               (nilReloader, Some Sample.noPEM)) by reflexivity.
  split; [exact Hc|]. split; [exact Hr|].
  now rewrite (@reloader_failure_is_fatal Sample.externals
                 Sample.reloaderFails Sample.noFlags (Some "")
                 (Some "clientset") (Some "versioned") nilReloader
                 Sample.noPEM Hc Hr).
Defined.

Lemma duration_flags_checked_witness :
  commandLine Sample.badResync = Parsed Sample.badResyncFlags /\
  ParseDuration Sample.badResync
    (parsedValue Sample.badResyncFlags resyncCron) =
    (0%Z, Some "time: invalid duration soon") /\
  snd (runMain Sample.badResync) =
    inr (Panic AtResyncCron
           "Full Resync Cron interval input is invalid. Error: time: invalid duration soon") /\
  filter constructsController (events (fst (runMain Sample.badResync))) = [].
Proof.
  split; [reflexivity|]. split; [reflexivity|].
  destruct (@duration_flags_checked Sample.externals Sample.badResync
              Sample.badResyncFlags eq_refl) as [Hany Hfirst].
  destruct (Hany eq_refl) as (s & site & cause & Hrun & _ & Hnone).
  specialize (Hfirst (Some "") (Some "clientset") (Some "versioned")
                (reloaderAt 1)).
  split.
  - rewrite Hfirst; [reflexivity| repeat split | reflexivity].
  - rewrite Hrun. exact Hnone.
Defined.

Lemma client_construction_failure_is_fatal_witness :
  snd (runMain Sample.buildFails) =
    inr (Panic AtBuildConfig "unable to load in-cluster configuration") /\
  snd (runMain Sample.kubeFails) =
    inr (Panic AtGetClients
           "Error occurred when creating clients. Error: Failed to create k8s client from config. Error: host must be a URL") /\
  snd (runMain Sample.athenzFails) =
    inr (Panic AtGetClients
           "Error occurred when creating clients. Error: Failed to create versiond client from config. Error: host must be a URL").
Proof.
  split; [|split].
  - destruct (@client_construction_failure_is_fatal Sample.externals
                Sample.buildFails Sample.noFlags eq_refl) as (H & _).
    now rewrite (H None "unable to load in-cluster configuration" eq_refl).
  - destruct (@client_construction_failure_is_fatal Sample.externals
                Sample.kubeFails Sample.noFlags eq_refl) as (_ & H & _).
    now rewrite (H (Some "") None "host must be a URL" eq_refl eq_refl).
  - destruct (@client_construction_failure_is_fatal Sample.externals
                Sample.athenzFails Sample.noFlags eq_refl) as (_ & _ & H & _).
    now rewrite (H (Some "") (Some "clientset") None "host must be a URL"
                   eq_refl eq_refl eq_refl).
Defined.

Lemma main_runs_until_signal_witness :
  clientsConstructed Sample.signalled Sample.noFlags
    (Some "") (Some "clientset") (Some "versioned") /\
  find terminates (signals Sample.signalled) = Some SIGTERM /\
  snd (runMain Sample.signalled) = inl tt /\
  last (events (fst (runMain Sample.signalled))) (Close sigTerm) =
    Close stopCh /\
  snd (runMain Sample.neverSignalled) = inr Blocked /\
  filter closesStop (events (fst (runMain Sample.neverSignalled))) = [].
Proof.
  assert (Hc : forall sigs,
             clientsConstructed
               (Sample.world Sample.noFlags None None None None sigs)
               Sample.noFlags (Some "") (Some "clientset") (Some "versioned"))
    by (intros; repeat split).
  split; [apply Hc|]. split; [reflexivity|].
  destruct (proj2 (@main_runs_until_signal Sample.externals Sample.signalled)
              Sample.noFlags (Some "") (Some "clientset") (Some "versioned")
              (reloaderAt 1) 60000000000%Z 3600000000000%Z 250000000%Z
              (Hc _) eq_refl eq_refl eq_refl eq_refl) as [Hrun _].
  destruct (proj2 (@main_runs_until_signal Sample.externals
                     Sample.neverSignalled)
              Sample.noFlags (Some "") (Some "clientset") (Some "versioned")
              (reloaderAt 1) 60000000000%Z 3600000000000%Z 250000000%Z
              (Hc _) eq_refl eq_refl eq_refl eq_refl) as [Hblocked Hopen].
  rewrite Hrun, Hblocked. split; [reflexivity|].
  split; [reflexivity|]. split; [reflexivity|]. exact Hopen.
Defined.

Lemma kubeconfig_path_selection_witness :
  (commandLine Sample.kubeconfigGiven = Parsed Sample.kubeconfigGivenFlags /\
   stringFlags Sample.kubeconfigGivenFlags "kubeconfig" =
     Some "/etc/kubeconfig" /\
   kubeconfigPath Sample.kubeconfigGiven Sample.kubeconfigGivenFlags = "") /\
  (commandLine Sample.outOfCluster = Parsed Sample.outOfClusterFlags /\
   boolFlags Sample.outOfClusterFlags "inClusterConfig" = Some false /\
   kubeconfigPath Sample.outOfCluster Sample.outOfClusterFlags =
     "/home/syncer/.kube/config").
Proof.
  split.
  - split; [reflexivity|]. split; [reflexivity|].
    exact (proj1 (@kubeconfig_path_selection Sample.externals
                    Sample.kubeconfigGiven Sample.kubeconfigGivenFlags
                    eq_refl)).
  - split; [reflexivity|]. split; [reflexivity|].
    exact (proj1 (@kubeconfig_path_selection Sample.externals
                    Sample.outOfCluster Sample.outOfClusterFlags eq_refl)).
Defined.

(** C8, as stated, fails: with [kube-system,,kube-public] for the flag
    the pieces are three and [util.NewUtil] receives two. *)
Lemma system_namespaces_drop_empty_components :
  exists s outcome u,
    runMain Sample.outOfCluster = (s, outcome) /\
    In (CallNewUtil u) (events s) /\
    parsedValue Sample.outOfClusterFlags systemNamespaces =
      "kube-system,,kube-public" /\
    strings.Split "kube-system,,kube-public" =
      ["kube-system"; ""; "kube-public"] /\
    util_systemNamespaces u = ["kube-system"; "kube-public"] /\
    util_systemNamespaces u <> strings.Split "kube-system,,kube-public".
Proof.
  exists (fst (runMain Sample.outOfCluster)),
         (snd (runMain Sample.outOfCluster)),
         (utilOf Sample.outOfClusterFlags).
  split; [now destruct (runMain Sample.outOfCluster)|].
  split; [vm_compute; tauto|].
  repeat (split; [reflexivity|]).
  discriminate.
Qed.

Lemma system_namespaces_nonempty_components_witness :
  In (CallNewUtil (utilOf Sample.outOfClusterFlags))
     (events (fst (runMain Sample.outOfCluster))) /\
  util_systemNamespaces (utilOf Sample.outOfClusterFlags) =
    filter nonEmpty (strings.Split "kube-system,,kube-public").
Proof.
  assert (Hin : In (CallNewUtil (utilOf Sample.outOfClusterFlags))
                   (events (fst (runMain Sample.outOfCluster))))
    by (vm_compute; tauto).
  split; [exact Hin|].
  destruct (@system_namespaces_nonempty_components Sample.externals
              Sample.outOfCluster (fst (runMain Sample.outOfCluster))
              (snd (runMain Sample.outOfCluster))
              (utilOf Sample.outOfClusterFlags)
              (surjective_pairing _) Hin) as (cl & Hcl & Hlist & _).
  injection Hcl as <-. exact Hlist.
Defined.

Lemma system_namespaces_without_empty_name_witness :
  In (CallNewUtil (utilOf Sample.noFlags))
     (events (fst (runMain Sample.signalled))) /\
  stringFlags Sample.noFlags "system-namespaces" = None /\
  util_systemNamespaces (utilOf Sample.noFlags) = [] /\
  Forall (fun ns => ns <> "")
         (util_systemNamespaces (utilOf Sample.outOfClusterFlags)).
Proof.
  assert (Hin : In (CallNewUtil (utilOf Sample.noFlags))
                   (events (fst (runMain Sample.signalled))))
    by (vm_compute; tauto).
  assert (Hin' : In (CallNewUtil (utilOf Sample.outOfClusterFlags))
                    (events (fst (runMain Sample.outOfCluster))))
    by (vm_compute; tauto).
  split; [exact Hin|]. split; [reflexivity|].
  destruct (@system_namespaces_without_empty_name Sample.externals
              Sample.signalled (fst (runMain Sample.signalled))
              (snd (runMain Sample.signalled)) (utilOf Sample.noFlags)
              (surjective_pairing _) Hin)
    as (_ & (cl & Hcl & Hunset) & _).
  injection Hcl as <-.
  split; [exact (Hunset eq_refl)|].
  exact (proj1 (@system_namespaces_without_empty_name Sample.externals
                  Sample.outOfCluster (fst (runMain Sample.outOfCluster))
                  (snd (runMain Sample.outOfCluster))
                  (utilOf Sample.outOfClusterFlags)
                  (surjective_pairing _) Hin')).
Defined.

(** * More properties *)

(** ** The namespace list as a function of the flag value *)

Lemma Split1_app (sep : ascii) (a b : string) :
  strings.Split1 sep (a ++ String sep b) =
  (strings.Split1 sep a ++ strings.Split1 sep b)%list.
Proof.
  induction a as [|c a IH]; simpl.
  - now rewrite Ascii.eqb_refl.
  - rewrite IH. destruct (Ascii.eqb c sep); [reflexivity|].
    destruct (Split1_cons sep a) as (p & ps & ->). reflexivity.
Qed.

Lemma Split1_whole (sep : ascii) (s : string) :
  strings.ContainsByte sep s = false -> strings.Split1 sep s = [s].
Proof.
  induction s as [|c s IH]; simpl; [reflexivity|].
  intros H. apply orb_false_iff in H. destruct H as [Hc Hs].
  rewrite Hc, (IH Hs). reflexivity.
Qed.

(** Splitting what was joined gives the pieces back, when there is a
    piece and none holds the separator. *)
Lemma Split1_Join1 (sep : ascii) (pieces : list string) :
  pieces <> [] ->
  Forall (fun p => strings.ContainsByte sep p = false) pieces ->
  strings.Split1 sep (strings.Join1 sep pieces) = pieces.
Proof.
  induction pieces as [|p rest IH]; [congruence|].
  intros _ Hall. inversion Hall as [|? ? Hp Hrest]; subst.
  destruct rest as [|q rest].
  - simpl. now apply Split1_whole.
  - change (strings.Join1 sep (p :: q :: rest))
      with (p ++ String sep (strings.Join1 sep (q :: rest))).
    rewrite Split1_app, (Split1_whole _ _ Hp), IH by (congruence || assumption).
    reflexivity.
Qed.

Lemma filter_all {A} (f : A -> bool) (l : list A) :
  Forall (fun x => f x = true) l -> filter f l = l.
Proof.
  induction 1 as [|x l Hx _ IH]; simpl; [reflexivity|].
  now rewrite Hx, IH.
Qed.

Lemma namespaceName_nonEmpty (l : list string) :
  Forall namespaceName l -> Forall (fun ns => nonEmpty ns = true) l.
Proof.
  apply Forall_impl. intros ns [Hne _]. unfold nonEmpty.
  destruct (String.eqb ns "") eqn:E; [|reflexivity].
  apply String.eqb_eq in E. contradiction.
Qed.

Lemma namespaceName_noComma (l : list string) :
  Forall namespaceName l ->
  Forall (fun ns => strings.ContainsByte "," ns = false) l.
Proof. apply Forall_impl. now intros ns [_ H]. Qed.

Lemma systemNamespaceList_names (v : string) :
  Forall namespaceName (systemNamespaceList v).
Proof.
  rewrite systemNamespaceList_filter. apply Forall_forall.
  intros ns H. apply filter_In in H. destruct H as [Hin Hne]. split.
  - unfold nonEmpty in Hne. intros ->. discriminate.
  - pose proof (Split1_pieces "," v) as Hall.
    rewrite Forall_forall in Hall. now apply Hall.
Qed.

Lemma systemNamespaceList_Join1 (names : list string) :
  Forall namespaceName names ->
  systemNamespaceList (strings.Join1 "," names) = names.
Proof.
  intros Hnames. rewrite systemNamespaceList_filter.
  destruct names as [|n names]; [reflexivity|].
  unfold strings.Split. rewrite Split1_Join1.
  - apply filter_all. now apply namespaceName_nonEmpty.
  - discriminate.
  - now apply namespaceName_noComma.
Qed.

(** X5.  The list for two values put together with a comma is the list for
    the first followed by the list for the second. *)
Theorem systemNamespaceList_comma (a b : string) :
  systemNamespaceList (a ++ "," ++ b) =
  (systemNamespaceList a ++ systemNamespaceList b)%list.
Proof.
  rewrite !systemNamespaceList_filter. unfold strings.Split.
  change ("," ++ b) with (String "," b).
  rewrite Split1_app. apply filter_app.
Qed.

(** X6.  A list of names, none empty and none with a comma, comes back as it
    is from the value that joins them with commas. *)
Theorem systemNamespaceList_round_trip (names : list string) :
  Forall namespaceName names ->
  systemNamespaceList (strings.Join1 "," names) = names.
Proof. apply systemNamespaceList_Join1. Qed.

(** X7.  Every name in the list is a name, without a comma in particular,
    and the list is a fixed point: joined with commas and read again it
    is the same list. *)
Theorem systemNamespaceList_normal (v : string) :
  Forall (fun ns => strings.ContainsByte "," ns = false)
         (systemNamespaceList v) /\
  systemNamespaceList (strings.Join1 "," (systemNamespaceList v)) =
    systemNamespaceList v /\
  List.length (systemNamespaceList v) <= S (strings.Count1 "," v).
Proof.
  split; [|split].
  - apply namespaceName_noComma, systemNamespaceList_names.
  - apply systemNamespaceList_Join1, systemNamespaceList_names.
  - rewrite systemNamespaceList_filter. unfold strings.Split.
    rewrite <- Split1_length. apply filter_length_le.
Qed.

Lemma systemNamespaceList_round_trip_witness :
  Forall namespaceName MoreSamples.systemNames /\
  strings.Join1 "," MoreSamples.systemNames = "kube-system,kube-public" /\
  systemNamespaceList "kube-system,kube-public" = MoreSamples.systemNames.
Proof.
  assert (H : Forall namespaceName MoreSamples.systemNames).
  { repeat constructor; discriminate. }
  split; [exact H|]. split; [reflexivity|].
  exact (systemNamespaceList_round_trip H).
Defined.

(** ** More on the runs of [main] *)
Section MoreRuns.
Context {X : Externals}.
Variable w : World.

#[local] Arguments flagValue : simpl never.
#[local] Arguments strings.Split1 : simpl never.
#[local] Arguments String.append : simpl never.
#[local] Arguments processNamespaces : simpl never.
#[local] Arguments relayed : simpl never.

Ltac unfold_run :=
  repeat progress
    unfold runMain, main, mainWithZMSClient, runUntilSignal, getClients,
      bind, ret, star, emit, stop, defer, flag_Parse, log_InitLogger,
      log_Info, log_Panicf, log_Panicln, fmt_Errorf, signal_Notify, receive,
      time_ParseDuration, util_NewUtil, controller_NewController;
  simpl.

Ltac by_answers :=
  repeat (simpl;
    match goal with
    | |- context [commandLine w] => destruct (commandLine w) eqn:?
    | |- context [if flagValue ?p ?f then _ else _] =>
        destruct (flagValue p f) eqn:?
    | |- context [BuildConfigFromFlags w ?a ?b] =>
        destruct (BuildConfigFromFlags w a b) as [? [?|]] eqn:?
    | |- context [kubernetes_NewForConfig w ?a] =>
        destruct (kubernetes_NewForConfig w a) as [? [?|]] eqn:?
    | |- context [athenz_NewForConfig w ?a] =>
        destruct (athenz_NewForConfig w a) as [? [?|]] eqn:?
    | |- context [NewCertReloader w ?a ?b] =>
        destruct (NewCertReloader w a b) as [? [?|]] eqn:?
    | |- context [ParseDuration w ?a] =>
        destruct (ParseDuration w a) as [? [?|]] eqn:?
    | |- context [find ?f (signals w)] =>
        destruct (find f (signals w)) eqn:?
    end).

(** X2.  [stopCh] is closed once in a run that returns and never in a run
    that panics, exits or stays blocked; and a run that panics or exits
    has not started the controller. *)
Theorem stop_channel_closed_on_return_only :
  filter closesStop (events (fst (runMain w))) =
    match snd (runMain w) with
    | inl _ => [Close stopCh]
    | inr _ => []
    end /\
  existsb startsController (events (fst (runMain w))) =
    match snd (runMain w) with
    | inl _ | inr Blocked => true
    | inr _ => false
    end.
Proof.
  unfold_run. by_answers; split; reflexivity.
Qed.

(** X3.  What [getClients] returns.  With an error, both clients are nil,
    also the cluster client that was constructed when the second
    construction fails, and the error says which construction failed;
    without one, the clients are those [kubernetes.NewForConfig] and
    [athenzClientset.NewForConfig] made from the configuration that
    [clientcmd.BuildConfigFromFlags] returned. *)
Theorem getClients_result s s' k8s versiond err :
  getClients w inClusterConfig s = (s', inl (k8s, versiond, err)) ->
  exists cl config,
    commandLine w = Parsed cl /\
    BuildConfigFromFlags w "" (kubeconfigPath w cl) = (config, None) /\
    match err with
    | None =>
        kubernetes_NewForConfig w config = (k8s, None) /\
        athenz_NewForConfig w config = (versiond, None)
    | Some cause =>
        k8s = None /\ versiond = None /\
        ((exists made msg,
            kubernetes_NewForConfig w config = (made, Some msg) /\
            cause =
              "Failed to create k8s client from config. Error: " ++ msg) \/
         (exists made made' msg,
            kubernetes_NewForConfig w config = (made, None) /\
            athenz_NewForConfig w config = (made', Some msg) /\
            cause =
              "Failed to create versiond client from config. Error: " ++ msg))
    end.
Proof.
  unfold_run.
  by_answers; intros [= ? ? ? ?]; subst;
    eexists _, _; (split; [reflexivity|]);
    unfold kubeconfigPath, parsedValue;
    match goal with H : flagValue _ inClusterConfig = _ |- _ => rewrite H end;
    (split; [eassumption|]); simpl; eauto 10.
Qed.

(** X4.  The controller of a run.  Whenever [controller.NewController] is
    called, its clients are the two [getClients] constructed, its ZMS
    client has the [zms-url] value for URL and the
    [disable-keep-alives] value on its transport and takes the client
    certificate of each handshake from the reloader that
    [r.NewCertReloader] returned in this run, its [Util] is the one
    built from the flags, and it is this controller that is started on
    [stopCh]. *)
Theorem controller_wiring s outcome c :
  runMain w = (s, outcome) ->
  In (CallNewController c) (events s) ->
  exists cl config certReloader client transport,
    clientsConstructed w cl config (ctl_k8sClient c) (ctl_versiondClient c) /\
    NewCertReloader w (reloadConfig cl) stopCh = (certReloader, None) /\
    ctl_zmsClient c = Some client /\
    URL client = parsedValue cl zmsURL /\
    Transport client = Some transport /\
    DisableKeepAlives transport = parsedValue cl disableKeepAlives /\
    (forall (heap : Heap) cri,
       handshakeCertificate client heap cri =
         match GetLatestCertificate heap certReloader with
         | Returns latest => Returns (latest, None)
         | Panics v => Panics v
         end) /\
    ctl_util c = utilOf cl /\
    In (Go_ControllerRun c stopCh) (events s).
Proof.
  unfold_run.
  by_answers; intros [= <- <-] Hin; simpl in Hin;
    repeat (destruct Hin as [Hin|Hin]; try discriminate Hin);
    try contradiction;
    injection Hin as <-;
    do 5 eexists;
    unfold clientsConstructed, kubeconfigPath, reloadConfig, parsedValue;
    match goal with H : flagValue _ inClusterConfig = _ |- _ => rewrite H end;
    simpl;
    (split; [repeat split; eassumption|]);
    (split; [eassumption|]);
    repeat (split; [reflexivity|]);
    simpl; tauto.
Qed.

Lemma flag_Bool_same cl cl' name value :
  sameButLogFlags cl cl' ->
  flagValue (Some cl') (flag_Bool name value) =
  flagValue (Some cl) (flag_Bool name value).
Proof.
  intros [Hbool _]. unfold flagValue. simpl. now rewrite Hbool.
Qed.

Lemma flag_String_same cl cl' name value :
  sameButLogFlags cl cl' ->
  name <> "log-location" -> name <> "log-mode" ->
  flagValue (Some cl') (flag_String name value) =
  flagValue (Some cl) (flag_String name value).
Proof.
  intros [_ Hstring] Hloc Hmode. unfold flagValue. simpl.
  now rewrite Hstring.
Qed.

(** X1.  The flags [log-location] and [log-mode] have no effect.  Every run
    begins by initialising the logger with the two defaults, whatever
    the command line, a rejected one included; and a command line that
    differs from another in these two flags only gives the same events
    and the same outcome. *)
Theorem log_flags_have_no_effect :
  hd_error (events (fst (runMain w))) =
    Some (InitLogger "/var/log/k8s-athenz-syncer/k8s-athenz-syncer.log"
                     "info") /\
  (forall cl cl',
     commandLine w = Parsed cl ->
     sameButLogFlags cl cl' ->
     events (fst (runMain (withCommandLine w (Parsed cl')))) =
       events (fst (runMain w)) /\
     snd (runMain (withCommandLine w (Parsed cl'))) = snd (runMain w)).
Proof.
  split.
  - unfold_run. by_answers; reflexivity.
  - intros cl cl' Hcl Hsame.
    unfold_run. unfold homeDir, withCommandLine. simpl. rewrite Hcl.
    unfold key, cert, zmsURL, updateCron, resyncCron, queueDelayInterval,
      adminDomain, systemNamespaces, disableKeepAlives, inClusterConfig.
    repeat (simpl;
      first
        [ rewrite (@flag_Bool_same cl cl' _ _ Hsame)
        | rewrite (@flag_String_same cl cl' _ _ Hsame) by discriminate
        | rewrite find_relayed by reflexivity
        | match goal with
          | |- context [String.eqb (Getenv w ?n) ""] =>
              destruct (String.eqb (Getenv w n) "") eqn:?
          | |- context [if flagValue ?p ?f then _ else _] =>
              destruct (flagValue p f) eqn:?
          | |- context [BuildConfigFromFlags w ?a ?b] =>
              destruct (BuildConfigFromFlags w a b) as [? [?|]] eqn:?
          | |- context [kubernetes_NewForConfig w ?a] =>
              destruct (kubernetes_NewForConfig w a) as [? [?|]] eqn:?
          | |- context [athenz_NewForConfig w ?a] =>
              destruct (athenz_NewForConfig w a) as [? [?|]] eqn:?
          | |- context [NewCertReloader w ?a ?b] =>
              destruct (NewCertReloader w a b) as [? [?|]] eqn:?
          | |- context [ParseDuration w ?a] =>
              destruct (ParseDuration w a) as [? [?|]] eqn:?
          | |- context [find ?f (signals w)] =>
              destruct (find f (signals w)) eqn:?
          end ]).
    all: simpl; split; reflexivity.
Qed.

(** X8.  The order of the start.  [r.NewCertReloader] is called at most
    once, on [stopCh] and the paths of the [key] and [cert] flags, and
    only when both cluster clients are constructed; and [util.NewUtil]
    is called only when [r.NewCertReloader] returned no error. *)
Theorem startup_order s outcome :
  runMain w = (s, outcome) ->
  List.length (filter callsNewCertReloader (events s)) <= 1 /\
  (forall cfg stopped,
     In (CallNewCertReloader cfg stopped) (events s) ->
     stopped = stopCh /\
     exists cl config k8s versiond,
       clientsConstructed w cl config k8s versiond /\
       cfg = reloadConfig cl) /\
  (forall u,
     In (CallNewUtil u) (events s) ->
     exists cl certReloader,
       commandLine w = Parsed cl /\
       NewCertReloader w (reloadConfig cl) stopCh = (certReloader, None)).
Proof.
  unfold_run.
  by_answers; intros [= <- <-]; (split; [simpl; lia|]); split.
  all: intros; simpl in *;
    repeat match goal with
           | H : _ \/ _ |- _ => destruct H; try discriminate
           | H : False |- _ => contradiction
           end.
  all: match goal with
       | H : CallNewCertReloader _ _ = CallNewCertReloader _ _ |- _ =>
           injection H as <- <-; split; [reflexivity|];
           do 4 eexists;
           unfold clientsConstructed, kubeconfigPath, reloadConfig,
             parsedValue;
           match goal with
           | H' : flagValue _ inClusterConfig = _ |- _ => rewrite H'
           end;
           simpl; repeat split; eassumption || reflexivity
       | H : CallNewUtil _ = CallNewUtil _ |- _ =>
           do 2 eexists; unfold reloadConfig, parsedValue;
           split; [reflexivity | eassumption]
       end.
Qed.

End MoreRuns.

(** ** These theorems at work on sample runs *)

Lemma getClients_result_witness :
  snd (getClients Sample.athenzFails inClusterConfig start) =
    inl (None, None,
         Some "Failed to create versiond client from config. Error: host must be a URL") /\
  exists cl config made,
    commandLine Sample.athenzFails = Parsed cl /\
    BuildConfigFromFlags Sample.athenzFails ""
      (kubeconfigPath Sample.athenzFails cl) = (config, None) /\
    kubernetes_NewForConfig Sample.athenzFails config = (Some made, None).
Proof.
  assert (Hrun :
    getClients Sample.athenzFails inClusterConfig start =
      (fst (getClients Sample.athenzFails inClusterConfig start),
       inl (None, None,
            Some "Failed to create versiond client from config. Error: host must be a URL")))
    by reflexivity.
  split; [reflexivity|].
  destruct (@getClients_result Sample.externals Sample.athenzFails
              _ _ _ _ _ Hrun) as (cl & config & Hcl & Hbuild & _).
  exists cl, config, "clientset". repeat split; assumption || reflexivity.
Defined.

Lemma controller_wiring_witness :
  In (CallNewController
        (controllerOf (X := Sample.externals) Sample.noFlags (Some "clientset") (Some "versioned")
           (reloaderAt 1) 60000000000%Z 3600000000000%Z 250000000%Z))
     (events (fst (runMain Sample.signalled))) /\
  In (Go_ControllerRun
        (controllerOf (X := Sample.externals) Sample.noFlags (Some "clientset") (Some "versioned")
           (reloaderAt 1) 60000000000%Z 3600000000000%Z 250000000%Z)
        stopCh)
     (events (fst (runMain Sample.signalled))).
Proof.
  assert (Hin :
    In (CallNewController
          (controllerOf (X := Sample.externals) Sample.noFlags (Some "clientset") (Some "versioned")
             (reloaderAt 1) 60000000000%Z 3600000000000%Z 250000000%Z))
       (events (fst (runMain Sample.signalled))))
    by (vm_compute; tauto).
  split; [exact Hin|].
  destruct (@controller_wiring Sample.externals Sample.signalled
              (fst (runMain Sample.signalled))
              (snd (runMain Sample.signalled)) _
              (surjective_pairing _) Hin)
    as (cl & config & r & client & transport & H).
  apply H.
Defined.

Lemma log_flags_have_no_effect_witness :
  commandLine Sample.signalled = Parsed Sample.noFlags /\
  sameButLogFlags Sample.noFlags MoreSamples.logFlags /\
  stringFlags MoreSamples.logFlags "log-mode" = Some "debug" /\
  hd_error
    (events
       (fst (runMain
               (withCommandLine Sample.signalled
                  (Parsed MoreSamples.logFlags))))) =
    Some (InitLogger "/var/log/k8s-athenz-syncer/k8s-athenz-syncer.log"
                     "info") /\
  events
    (fst (runMain
            (withCommandLine Sample.signalled (Parsed MoreSamples.logFlags)))) =
    events (fst (runMain Sample.signalled)).
Proof.
  assert (Hsame : sameButLogFlags Sample.noFlags MoreSamples.logFlags).
  { split; [reflexivity|]. intros name Hloc Hmode.
    cbv beta iota delta
      [stringFlags Sample.lookup MoreSamples.logFlags Sample.flags
       Sample.noFlags].
    destruct (String.eqb "log-location" name) eqn:E1;
      [apply String.eqb_eq in E1; congruence|].
    destruct (String.eqb "log-mode" name) eqn:E2;
      [apply String.eqb_eq in E2; congruence|].
    reflexivity. }
  split; [reflexivity|]. split; [exact Hsame|]. split; [reflexivity|].
  split.
  - exact (proj1 (@log_flags_have_no_effect Sample.externals
                    (withCommandLine Sample.signalled
                       (Parsed MoreSamples.logFlags)))).
  - exact (proj1 (proj2 (@log_flags_have_no_effect Sample.externals
                           Sample.signalled)
                    Sample.noFlags MoreSamples.logFlags eq_refl Hsame)).
Defined.

Lemma startup_order_witness :
  In (CallNewCertReloader (reloadConfig Sample.noFlags) stopCh)
     (events (fst (runMain Sample.reloaderFails))) /\
  List.length
    (filter callsNewCertReloader
       (events (fst (runMain Sample.reloaderFails)))) <= 1 /\
  exists cl config k8s versiond,
    clientsConstructed Sample.reloaderFails cl config k8s versiond /\
    reloadConfig Sample.noFlags = reloadConfig cl.
Proof.
  assert (Hin : In (CallNewCertReloader (reloadConfig Sample.noFlags) stopCh)
                   (events (fst (runMain Sample.reloaderFails))))
    by (vm_compute; tauto).
  split; [exact Hin|].
  destruct (@startup_order Sample.externals Sample.reloaderFails
              (fst (runMain Sample.reloaderFails))
              (snd (runMain Sample.reloaderFails))
              (surjective_pairing _)) as (Honce & Hreloader & _).
  split; [exact Honce|].
  exact (proj2 (Hreloader _ _ Hin)).
Defined.
